(** * The Taurus nose plugin ([bzt/resources/nose_plugin.py])

    A shallow embedding of the reporter that turns the test lifecycle
    callbacks of the nose framework into a CSV sample log and an XML
    error log, together with the properties of its specification.

    Python objects are modelled as follows.
    - [str] is [string], the UTF-8 bytes of the text; a dict keyed by
      strings is a [gmap string _].
    - The values stored in [jtl_dict] are ints, strings or [None]: [pyval].
    - A function that may raise returns [res]: [Ok] with its value or
      [Raise] with the exception.  A method of the plugin maps the
      plugin to the plugin it leaves behind, also when it raises, paired
      with such a result.
    - A file object is the list of what was written to it plus a
      [closed] flag.  The CSV file holds rows of cells (what
      [csv.DictWriter] is handed, before quoting); the XML file holds the
      calls made on lxml's incremental [xmlfile] writer.  Opening a
      file and writing to an open one succeed: the disk and the
      encoding of the text streams take what is written.
    - [time()] is a floating-point clock reading.  The two integers the
      code derives from it, [int(1000 * time())] at start and
      [int(1000 * (time() - self._time))] at stop, are inputs of
      [startTest] and [stopTest]. *)

From Stdlib Require Import Ascii.
From stdpp Require Import gmap strings list fin_maps pretty.


Local Open Scope Z_scope.

(** ** Python values and exceptions *)

Inductive pyval :=
| PNone
| PInt (z : Z)
| PStr (s : string).

Global Instance pyval_eq_dec : EqDecision pyval.
Proof. solve_decision. Defined.

Global Instance pyval_inhabited : Inhabited pyval := populate PNone.

(** [str(v)] for the values that occur. *)
Definition py_str (v : pyval) : string :=
  match v with
  | PNone => "None"
  | PInt z => pretty z
  | PStr s => s
  end.

Definition as_str (v : pyval) : option string :=
  match v with PStr s => Some s | _ => None end.

Inductive exn :=
| TypeError
| AttributeError
| KeyError
| ValueError
| StopIteration
| RuntimeError (msg : string).

Inductive res (A : Type) :=
| Ok (a : A)
| Raise (e : exn).
Arguments Ok {A} a.
Arguments Raise {A} e.

Global Instance res_ret : MRet res := λ A a, Ok a.

Global Instance res_bind : MBind res := λ A B f m,
  match m with
  | Ok a => f a
  | Raise e => Raise e
  end.

(** [d[k]]: a missing key raises [KeyError]. *)
Definition getitem (d : gmap string pyval) (k : string) : res pyval :=
  match d !! k with
  | Some v => Ok v
  | None => Raise KeyError
  end.

(** [{}.fromkeys(keys, v)] *)
Definition fromkeys (keys : list string) (v : pyval) : gmap string pyval :=
  foldr (λ k d, <[k:=v]> d) ∅ keys.

(** ** Constants of the module *)

Definition JTL_ERR_ATRS : list string :=
  ["t"; "lt"; "ct"; "ts"; "s"; "lb"; "rc"; "rm"; "tn"; "dt"; "de"; "by"; "ng"; "na"].

Definition JTL_HEADER : list string :=
  ["timeStamp"; "elapsed"; "label"; "responseCode"; "responseMessage"; "threadName";
   "success"; "grpThreads"; "allThreads"; "Latency"; "Connect"].

(** ** Regular expressions

    The three patterns use escaped literal characters, [.], the lazy
    star [*?] on a single character and one capture group.  The matcher
    is a backtracking one with Python's priorities: a lazy star first
    tries the rest of the pattern and only then takes one more
    character; [.] does not match a newline (no [DOTALL] flag). *)

Module Re.

Inductive atom :=
| Lit (c : Ascii.ascii)
| AnyChar.

Inductive regex :=
| Atom (a : atom)
| LazyStar (a : atom)
| Group (r : regex)
| Cat (r1 r2 : regex).

Definition newline : Ascii.ascii := Ascii.ascii_of_nat 10.

Definition atom_matches (a : atom) (c : Ascii.ascii) : bool :=
  match a with
  | Lit c' => Ascii.eqb c' c
  | AnyChar => negb (Ascii.eqb c newline)
  end.

(** The part of [s] consumed when the input left is [s']. *)
Definition consumed (s s' : string) : string :=
  String.substring 0 (String.length s - String.length s')%nat s.

Fixpoint lazy_star {A} (a : atom) (k : string → option A) (s : string) : option A :=
  match k s with
  | Some x => Some x
  | None =>
      match s with
      | String c s' => if atom_matches a c then lazy_star a k s' else None
      | EmptyString => None
      end
  end.

(** [match_at r s g k]: match [r] at the start of [s], with [g] the
    capture so far, and hand the input left and the capture to [k];
    [None] makes the matcher backtrack. *)
Fixpoint match_at {A} (r : regex) (s : string) (g : option string)
    (k : string → option string → option A) : option A :=
  match r with
  | Atom a =>
      match s with
      | String c s' => if atom_matches a c then k s' g else None
      | EmptyString => None
      end
  | LazyStar a => lazy_star a (λ s', k s' g) s
  | Group r' => match_at r' s g (λ s' _, k s' (Some (consumed s s')))
  | Cat r1 r2 => match_at r1 s g (λ s' g', match_at r2 s' g' k)
  end.

(** Group 1 of the match of [r] at the start of [s]. *)
Definition match_here (r : regex) (s : string) : option string :=
  match_at r s None (λ _ g, Some (default "" g)).

(** The leftmost match: the first start position at which [r] matches. *)
Fixpoint search (r : regex) (s : string) : option string :=
  match match_here r s with
  | Some g => Some g
  | None =>
      match s with
      | String _ s' => search r s'
      | EmptyString => None
      end
  end.

(** For a pattern with one group [findall] lists group 1 of the
    successive matches; [startTest] only looks at whether that list is
    empty and at its first element, which is group 1 of the leftmost
    match. *)
Definition findall_head (r : regex) (s : string) : option string := search r s.

End Re.

(** [SEARCH_PATTERNS]: [\((.*?)\.], [\.(.*?)\)] and [(.*?)\ ]. *)
Definition SEARCH_PATTERNS (key : string) : Re.regex :=
  if String.eqb key "file" then
    Re.Cat (Re.Atom (Re.Lit "("%char)) (Re.Cat (Re.Group (Re.LazyStar Re.AnyChar)) (Re.Atom (Re.Lit "."%char)))
  else if String.eqb key "class" then
    Re.Cat (Re.Atom (Re.Lit "."%char)) (Re.Cat (Re.Group (Re.LazyStar Re.AnyChar)) (Re.Atom (Re.Lit ")"%char)))
  else
    Re.Cat (Re.Group (Re.LazyStar Re.AnyChar)) (Re.Atom (Re.Lit " "%char)).

(** [x = p.findall(s); x = x[0] if x else ""] *)
Definition first_or_empty (p : Re.regex) (s : string) : string :=
  match Re.findall_head p s with
  | Some g => g
  | None => ""
  end.

(** ** Characters of a string *)

(** Every character of [s] satisfies [P]; [s] contains [c]. *)
Fixpoint all_chars (P : Ascii.ascii → bool) (s : string) : bool :=
  match s with
  | EmptyString => true
  | String c s' => P c && all_chars P s'
  end.

Fixpoint has_char (c : Ascii.ascii) (s : string) : bool :=
  match s with
  | EmptyString => false
  | String c' s' => Ascii.eqb c c' || has_char c s'
  end.

(** [len(s)]: the number of code points, that is, of the bytes that do
    not continue a UTF-8 sequence. *)
Definition utf8_continuation (c : Ascii.ascii) : bool :=
  ((128 <=? N_of_ascii c) && (N_of_ascii c <? 192))%N.

Fixpoint py_len (s : string) : nat :=
  match s with
  | EmptyString => 0%nat
  | String c s' => ((if utf8_continuation c then 0 else 1) + py_len s')%nat
  end.

(** ** Files *)

Record file (A : Type) := File { written : list A; closed : bool }.
Arguments File {A} written closed.
Arguments written {A} f.
Arguments closed {A} f.

(** [open(path, mode)]: a new, empty, open file. *)
Definition fopen {A} : file A := File [] false.

(** Writing to (or flushing) a closed file raises [ValueError]. *)
Definition fwrite {A} (f : file A) (xs : list A) : res (file A) :=
  if closed f then Raise ValueError else Ok (File (written f ++ xs) false).

Definition fflush {A} (f : file A) : res (file A) :=
  if closed f then Raise ValueError else Ok f.

Definition fclose {A} (f : file A) : file A := File (written f) true.

(** ** XML elements and lxml's incremental writer *)

Local Unset Elimination Schemes.
Inductive element :=
| Element (tag : string) (attrib : gmap string string) (text : option string)
    (children : list element).
Local Set Elimination Schemes.

Definition tag_of (e : element) : string := let 'Element t _ _ _ := e in t.
Definition attrib_of (e : element) : gmap string string := let 'Element _ a _ _ := e in a.
Definition text_of (e : element) : option string := let 'Element _ _ x _ := e in x.
Definition children_of (e : element) : list element := let 'Element _ _ _ c := e in c.

(** [e.set(k, v)], [e.text = s] and [e.append(c)] *)
Definition el_set (k v : string) (e : element) : element :=
  let 'Element t a x c := e in Element t (<[k:=v]> a) x c.
Definition el_set_text (s : option string) (e : element) : element :=
  let 'Element t a _ c := e in Element t a s c.
Definition el_append (child : element) (e : element) : element :=
  let 'Element t a x c := e in Element t a x (c ++ [child]).

(** lxml takes only strings that are "XML compatible" and raises
    [ValueError] on the others: those with a NUL or another control
    character below 0x20 other than tab, newline and carriage return,
    or with one of the code points U+FFFE, U+FFFF and U+D800..U+DFFF,
    which it finds as the three bytes of their UTF-8 encoding. *)
Definition xml_char (c : Ascii.ascii) : bool :=
  let n := N_of_ascii c in
  ((n =? 9) || (n =? 10) || (n =? 13) || (32 <=? n))%N.

Definition xml_forbidden (c : Ascii.ascii) (s' : string) : bool :=
  match s' with
  | String c1 (String c2 _) =>
      let next3 := (N_of_ascii c * 65536 + N_of_ascii c1 * 256 + N_of_ascii c2)%N in
      ((128 <=? N_of_ascii c) &&
       ((next3 =? 15712190) || (next3 =? 15712191) ||
        ((15573120 <=? next3) && (next3 <=? 15581119))))%N
  | _ => false
  end.

Fixpoint xml_compatible (s : string) : bool :=
  match s with
  | EmptyString => true
  | String c s' => xml_char c && negb (xml_forbidden c s') && xml_compatible s'
  end.

(** A tag or attribute name must be an XML name without colon: a
    letter or underscore, then letters, digits, [_], [-] and [.].  This
    is the check on names written in ASCII, as all names of this module
    are; bytes of other characters are let through, and a namespace in
    braces is not a name here. *)
Definition name_start_char (c : Ascii.ascii) : bool :=
  let n := N_of_ascii c in
  (((65 <=? n) && (n <=? 90)) || ((97 <=? n) && (n <=? 122)) || (n =? 95) || (128 <=? n))%N.

Definition name_char (c : Ascii.ascii) : bool :=
  let n := N_of_ascii c in
  name_start_char c || (((48 <=? n) && (n <=? 57)) || (n =? 45) || (n =? 46))%N.

Definition xml_name (s : string) : bool :=
  match s with
  | EmptyString => false
  | String c s' => name_start_char c && all_chars name_char s' && xml_compatible s
  end.

(** [etree.Element(tag, **extra)]: every attribute value must be a
    string, otherwise [TypeError]; the tag, the attribute names and the
    values must pass lxml's checks, otherwise [ValueError].  (With
    several attributes refused, lxml raises for the first it visits;
    [stopTest] passes only strings.) *)
Definition etree_Element (tag : string) (extra : gmap string pyval) : res element :=
  if decide (map_Forall (λ _ v, is_Some (as_str v)) extra)
  then
    if decide (xml_name tag = true ∧
               map_Forall (λ k v, xml_name k = true ∧ xml_compatible v = true)
                 (omap as_str extra))
    then Ok (Element tag (omap as_str extra) None [])
    else Raise ValueError
  else Raise TypeError.

(** What the calls on [etree.xmlfile] put into the stream. *)
Inductive xml_write :=
| WDeclaration
| WStartTag (tag : string) (attrs : gmap string string)
| WElement (e : element)
| WEndTag (tag : string).

(** The generator [write_element(fds)] once [next] has run it to its
    [yield]: [Suspended] there, inside both [with] blocks, or [Finished]. *)
Inductive generator :=
| Suspended
| Finished.

Definition testResults_attrs : gmap string string := {[ "version" := "1.2" ]}.

Module JTLErrorWriter.

Record t := Make { xml_writer : generator; out_file_fds : file xml_write }.

(** [write_element(fds)] run by [next] up to the first [yield]: the
    declaration and the start tag of the root element are written. *)
Definition write_element (fds : file xml_write) : res t :=
  f ← fwrite fds [WDeclaration];
  f ← fwrite f [WStartTag "testResults" testResults_attrs];
  mret (Make Suspended f).

Definition __init__ (fds : file xml_write) : res t := write_element fds.

(** [self.xml_writer.send(el)]: the generator resumes at the [yield],
    writes [el], flushes and loops back to the [yield].  A finished
    generator raises [StopIteration]; a failing write ends it. *)
Definition send (w : t) (el : element) : t * res unit :=
  match xml_writer w with
  | Finished => (w, Raise StopIteration)
  | Suspended =>
      match f ← fwrite (out_file_fds w) [WElement el]; fflush f with
      | Ok f => (Make Suspended f, Ok ())
      | Raise e => (Make Finished (out_file_fds w), Raise e)
      end
  end.

Definition gen_resp_header : element :=
  el_set "class" "java.lang.String" (Element "responseHeader" ∅ None []).

Definition gen_req_header : element :=
  el_set "class" "java.lang.String" (Element "requestHeader" ∅ None []).

(** [resp_data.text = data]: [ValueError] unless [data] is XML
    compatible. *)
Definition gen_resp_data (data : string) : res element :=
  let resp_data := el_set "class" "java.lang.String" (Element "responseData" ∅ None []) in
  if xml_compatible data
  then Ok (el_set_text (Some data) resp_data)
  else Raise ValueError.

Definition gen_cookies : element :=
  el_set "class" "java.lang.String" (Element "cookies" ∅ None []).

Definition gen_method : element :=
  el_set "class" "java.lang.String" (Element "method" ∅ None []).

Definition gen_queryString : element :=
  el_set "class" "java.lang.String" (Element "queryString" ∅ None []).

(** [url_element.text = url]: a string or [None], otherwise
    [TypeError]; [ValueError] unless the string is XML compatible. *)
Definition gen_url (url : pyval) : res element :=
  match url with
  | PStr s =>
      if xml_compatible s
      then Ok (el_set_text (Some s) (Element "java.net.URL" ∅ None []))
      else Raise ValueError
  | PNone => Ok (Element "java.net.URL" ∅ None [])
  | PInt _ => Raise TypeError
  end.

Definition gen_httpSample (sample : gmap string pyval) (url : pyval) (resp_data : string)
    : res element :=
  sample_element ← etree_Element "httpSample" sample;
  let sample_element := el_append gen_resp_header sample_element in
  let sample_element := el_append gen_req_header sample_element in
  resp_data_element ← gen_resp_data resp_data;
  let sample_element := el_append resp_data_element sample_element in
  let sample_element := el_append gen_cookies sample_element in
  let sample_element := el_append gen_method sample_element in
  let sample_element := el_append gen_queryString sample_element in
  u ← gen_url url;
  mret (el_append u sample_element).

Definition add_sample (w : t) (sample : gmap string pyval) (url : pyval) (resp_data : string)
    : t * res unit :=
  match gen_httpSample sample url resp_data with
  | Ok new_sample => send w new_sample
  | Raise e => (w, Raise e)
  end.

(** [self.xml_writer.close()]: [GeneratorExit] is raised at the
    [yield] and caught, the [with] block of the root element writes
    its end tag and the generator finishes; on a finished generator
    nothing happens. *)
Definition close (w : t) : t * res unit :=
  match xml_writer w with
  | Finished => (w, Ok ())
  | Suspended =>
      match fwrite (out_file_fds w) [WEndTag "testResults"] with
      | Ok f => (Make Finished f, Ok ())
      | Raise e => (Make Finished (out_file_fds w), Raise e)
      end
  end.

End JTLErrorWriter.

(** ** The CSV writer *)

(** A [csv.DictWriter] is its [fieldnames]; it writes to [out_stream]. *)
Definition DictWriter : Type := list string.

(** A cell as the [csv] module writes it: [None] is empty, anything
    else goes through [str]. *)
Definition csv_cell (v : pyval) : string :=
  match v with
  | PNone => ""
  | _ => py_str v
  end.

(** [DictWriter._dict_to_list]: a key that is no field raises
    [ValueError]; a field without a key gets the empty [restval]. *)
Definition dict_to_list (fieldnames : DictWriter) (rowdict : gmap string pyval)
    : res (list string) :=
  if decide (dom rowdict ⊆ list_to_set fieldnames)
  then Ok ((λ k, csv_cell (default (PStr "") (rowdict !! k))) <$> fieldnames)
  else Raise ValueError.

(** ** The plugin *)

(** [err[1]]: the exception instance, as [sys.exc_info()] has it and
    as the framework passes it on, or a string, when a [formatError]
    plugin has put the formatted message in its place. *)
Inductive exc_val :=
| ExcInstance (message : string)
| ExcText (text : string).

(** [err] as the plugin uses it: [err[0].__name__], [err[1]] and
    [traceback.format_tb(err[2])]. *)
Record exc_info := ExcInfo {
  exc_type_name : string;
  exc_value : exc_val;
  format_tb : list string
}.

Record TaurusNosePlugin := {
  _module_name : option string;
  _method_name : option string;
  output_file : string;
  err_file : string;
  test_count : Z;
  success : Z;
  csv_writer : option DictWriter;
  jtl_dict : option (gmap string pyval);
  (** the generator of the [JTLErrorWriter]; its [out_file_fds] is the
      very object held in [err_stream] *)
  error_writer : option generator;
  last_err : option exc_info;
  (** the clock reading of [startTest], in milliseconds; the attribute
      does not exist before the first [startTest] *)
  _time : option Z;
  out_stream : option (file (list string));
  err_stream : option (file xml_write);
  (** what was written to [sys.stdout] *)
  stdout : list string
}.

Definition set_module_name (v : option string) (p : TaurusNosePlugin) : TaurusNosePlugin :=
  {| _module_name := v; _method_name := _method_name p; output_file := output_file p; err_file := err_file p; test_count := test_count p; success := success p; csv_writer := csv_writer p; jtl_dict := jtl_dict p; error_writer := error_writer p; last_err := last_err p; _time := _time p; out_stream := out_stream p; err_stream := err_stream p; stdout := stdout p |}.

Definition set_method_name (v : option string) (p : TaurusNosePlugin) : TaurusNosePlugin :=
  {| _module_name := _module_name p; _method_name := v; output_file := output_file p; err_file := err_file p; test_count := test_count p; success := success p; csv_writer := csv_writer p; jtl_dict := jtl_dict p; error_writer := error_writer p; last_err := last_err p; _time := _time p; out_stream := out_stream p; err_stream := err_stream p; stdout := stdout p |}.

Definition set_test_count (v : Z) (p : TaurusNosePlugin) : TaurusNosePlugin :=
  {| _module_name := _module_name p; _method_name := _method_name p; output_file := output_file p; err_file := err_file p; test_count := v; success := success p; csv_writer := csv_writer p; jtl_dict := jtl_dict p; error_writer := error_writer p; last_err := last_err p; _time := _time p; out_stream := out_stream p; err_stream := err_stream p; stdout := stdout p |}.

Definition set_success (v : Z) (p : TaurusNosePlugin) : TaurusNosePlugin :=
  {| _module_name := _module_name p; _method_name := _method_name p; output_file := output_file p; err_file := err_file p; test_count := test_count p; success := v; csv_writer := csv_writer p; jtl_dict := jtl_dict p; error_writer := error_writer p; last_err := last_err p; _time := _time p; out_stream := out_stream p; err_stream := err_stream p; stdout := stdout p |}.

Definition set_csv_writer (v : option DictWriter) (p : TaurusNosePlugin) : TaurusNosePlugin :=
  {| _module_name := _module_name p; _method_name := _method_name p; output_file := output_file p; err_file := err_file p; test_count := test_count p; success := success p; csv_writer := v; jtl_dict := jtl_dict p; error_writer := error_writer p; last_err := last_err p; _time := _time p; out_stream := out_stream p; err_stream := err_stream p; stdout := stdout p |}.

Definition set_jtl_dict (v : option (gmap string pyval)) (p : TaurusNosePlugin) : TaurusNosePlugin :=
  {| _module_name := _module_name p; _method_name := _method_name p; output_file := output_file p; err_file := err_file p; test_count := test_count p; success := success p; csv_writer := csv_writer p; jtl_dict := v; error_writer := error_writer p; last_err := last_err p; _time := _time p; out_stream := out_stream p; err_stream := err_stream p; stdout := stdout p |}.

Definition set_error_writer (v : option generator) (p : TaurusNosePlugin) : TaurusNosePlugin :=
  {| _module_name := _module_name p; _method_name := _method_name p; output_file := output_file p; err_file := err_file p; test_count := test_count p; success := success p; csv_writer := csv_writer p; jtl_dict := jtl_dict p; error_writer := v; last_err := last_err p; _time := _time p; out_stream := out_stream p; err_stream := err_stream p; stdout := stdout p |}.

Definition set_last_err (v : option exc_info) (p : TaurusNosePlugin) : TaurusNosePlugin :=
  {| _module_name := _module_name p; _method_name := _method_name p; output_file := output_file p; err_file := err_file p; test_count := test_count p; success := success p; csv_writer := csv_writer p; jtl_dict := jtl_dict p; error_writer := error_writer p; last_err := v; _time := _time p; out_stream := out_stream p; err_stream := err_stream p; stdout := stdout p |}.

Definition set_time (v : option Z) (p : TaurusNosePlugin) : TaurusNosePlugin :=
  {| _module_name := _module_name p; _method_name := _method_name p; output_file := output_file p; err_file := err_file p; test_count := test_count p; success := success p; csv_writer := csv_writer p; jtl_dict := jtl_dict p; error_writer := error_writer p; last_err := last_err p; _time := v; out_stream := out_stream p; err_stream := err_stream p; stdout := stdout p |}.

Definition set_out_stream (v : option (file (list string))) (p : TaurusNosePlugin) : TaurusNosePlugin :=
  {| _module_name := _module_name p; _method_name := _method_name p; output_file := output_file p; err_file := err_file p; test_count := test_count p; success := success p; csv_writer := csv_writer p; jtl_dict := jtl_dict p; error_writer := error_writer p; last_err := last_err p; _time := _time p; out_stream := v; err_stream := err_stream p; stdout := stdout p |}.

Definition set_err_stream (v : option (file xml_write)) (p : TaurusNosePlugin) : TaurusNosePlugin :=
  {| _module_name := _module_name p; _method_name := _method_name p; output_file := output_file p; err_file := err_file p; test_count := test_count p; success := success p; csv_writer := csv_writer p; jtl_dict := jtl_dict p; error_writer := error_writer p; last_err := last_err p; _time := _time p; out_stream := out_stream p; err_stream := v; stdout := stdout p |}.

Definition set_stdout (v : list string) (p : TaurusNosePlugin) : TaurusNosePlugin :=
  {| _module_name := _module_name p; _method_name := _method_name p; output_file := output_file p; err_file := err_file p; test_count := test_count p; success := success p; csv_writer := csv_writer p; jtl_dict := jtl_dict p; error_writer := error_writer p; last_err := last_err p; _time := _time p; out_stream := out_stream p; err_stream := err_stream p; stdout := v |}.

(** [TaurusNosePlugin.__init__(output_file, err_file)] *)
Definition __init__ (output_file err_file : string) : TaurusNosePlugin :=
  {| _module_name := None; _method_name := None;
     output_file := output_file; err_file := err_file;
     test_count := 0; success := 0;
     csv_writer := None; jtl_dict := None; error_writer := None; last_err := None;
     _time := None; out_stream := None; err_stream := None; stdout := [] |}.

(** *** Methods as state transformers that may raise

    A method maps the plugin to the plugin it leaves behind and either
    its return value or the exception that ended it. *)

Definition M (A : Type) : Type := TaurusNosePlugin → TaurusNosePlugin * res A.

Global Instance M_ret : MRet M := λ A a p, (p, Ok a).

Global Instance M_bind : MBind M := λ A B f m p,
  match m p with
  | (p', Ok a) => f a p'
  | (p', Raise e) => (p', Raise e)
  end.

Definition gets {A} (f : TaurusNosePlugin → A) : M A := λ p, (p, Ok (f p)).

Definition modify (f : TaurusNosePlugin → TaurusNosePlugin) : M unit := λ p, (f p, Ok ()).

Definition raise {A} (e : exn) : M A := λ p, (p, Raise e).

Definition lift {A} (r : res A) : M A := λ p, (p, r).

(** Reading an attribute in order to call a method on it: on [None]
    (or before [begin] has created it) this is an [AttributeError]. *)
Definition attr {A} (f : TaurusNosePlugin → option A) : M A := λ p,
  match f p with
  | Some a => (p, Ok a)
  | None => (p, Raise AttributeError)
  end.

(** [self.jtl_dict[k] = v] and [self.jtl_dict[k]]; subscripting [None]
    is a [TypeError]. *)
Definition jtl_setitem (k : string) (v : pyval) : M unit := λ p,
  match jtl_dict p with
  | Some d => (set_jtl_dict (Some (<[k:=v]> d)) p, Ok ())
  | None => (p, Raise TypeError)
  end.

Definition jtl : M (gmap string pyval) := λ p,
  match jtl_dict p with
  | Some d => (p, Ok d)
  | None => (p, Raise TypeError)
  end.

Definition jtl_getitem (k : string) : M pyval :=
  d ← jtl;
  lift (getitem d k).

(** A method of [self.error_writer]; the writer works on the file
    object that [self.err_stream] names. *)
Definition on_error_writer (op : JTLErrorWriter.t → JTLErrorWriter.t * res unit) : M unit :=
  g ← attr error_writer;
  fds ← attr err_stream;
  let '(w, r) := op (JTLErrorWriter.Make g fds) in
  modify (set_error_writer (Some (JTLErrorWriter.xml_writer w)));;
  modify (set_err_stream (Some (JTLErrorWriter.out_file_fds w)));;
  lift r.

Definition py_of (o : option string) : pyval :=
  match o with
  | Some s => PStr s
  | None => PNone
  end.

Definition nl : string := String Re.newline "".

(** *** Outcome callbacks *)

Definition addError (err : exc_info) : M unit :=
  jtl_setitem "responseCode" (PStr "500");;
  modify (set_last_err (Some err)).

Definition addFailure (err : exc_info) : M unit :=
  jtl_setitem "responseCode" (PStr "404");;
  modify (set_last_err (Some err)).

Definition addSkip : M unit :=
  jtl_setitem "responseCode" (PStr "300").

Definition addSuccess : M unit :=
  jtl_setitem "responseCode" (PStr "200");;
  jtl_setitem "success" (PStr "true");;
  jtl_setitem "responseMessage" (PStr "OK");;
  n ← gets success;
  modify (set_success (n + 1)).

(** *** Run level *)

Definition begin : M unit :=
  modify (set_out_stream (Some fopen));;
  modify (set_csv_writer (Some JTL_HEADER));;
  modify (set_err_stream (Some fopen));;
  fds ← attr err_stream;
  w ← lift (JTLErrorWriter.__init__ fds);
  modify (set_err_stream (Some (JTLErrorWriter.out_file_fds w)));;
  modify (set_error_writer (Some (JTLErrorWriter.xml_writer w)));;
  (* self.csv_writer.writeheader() *)
  fieldnames ← attr csv_writer;
  out ← attr out_stream;
  out ← lift (fwrite out [fieldnames]);
  modify (set_out_stream (Some out));;
  modify (set_module_name (Some "")).

Definition finalize : M unit :=
  on_error_writer JTLErrorWriter.close;;
  out ← attr out_stream;
  modify (set_out_stream (Some (fclose out)));;
  err ← attr err_stream;
  modify (set_err_stream (Some (fclose err)));;
  n ← gets test_count;
  if decide (n = 0) then raise (RuntimeError "Nothing to test.") else mret ().

(** *** Test level *)

(** [test] is [str(test)]; [now_ms] is [int(1000 * time())]. *)
Definition startTest (test : string) (now_ms : Z) : M unit :=
  let full_test_name := test in
  let file_name := first_or_empty (SEARCH_PATTERNS "file") full_test_name in
  let class_name := first_or_empty (SEARCH_PATTERNS "class") full_test_name in
  let method_name := first_or_empty (SEARCH_PATTERNS "method") full_test_name in
  m ← gets _module_name;
  (if decide (m ≠ Some (file_name +:+ "." +:+ class_name))
   then modify (set_module_name (Some (file_name +:+ "." +:+ class_name)))
   else mret ());;
  modify (set_method_name (Some method_name));;
  modify (set_last_err None);;
  modify (set_time (Some now_ms));;
  modify (set_jtl_dict (Some (fromkeys JTL_HEADER (PInt 0))));;
  jtl_setitem "timeStamp" (PInt now_ms);;
  m ← gets _method_name;
  jtl_setitem "label" (py_of m);;
  m ← gets _module_name;
  jtl_setitem "threadName" (py_of m);;
  jtl_setitem "grpThreads" (PInt 1);;
  jtl_setitem "allThreads" (PInt 1);;
  jtl_setitem "success" (PStr "false").

(** The local [trace] of [stopTest]:
    ["".join(traceback.format_tb(err[2])) + "\n" + err[1]].  A string
    plus an exception instance is a [TypeError]. *)
Definition trace_text (err : exc_info) : res string :=
  match exc_value err with
  | ExcText text => Ok (String.concat "" (format_tb err) +:+ nl +:+ text)
  | ExcInstance _ => Raise TypeError
  end.

(** The dict [sample] that [stopTest] fills from [self.jtl_dict] when an
    exception was stashed. *)
Definition error_sample (jtl_dict : gmap string pyval) (exc_type_name trace : string)
    : res (gmap string pyval) :=
  let sample := fromkeys JTL_ERR_ATRS PNone in
  v ← getitem jtl_dict "elapsed"; let sample := <["t" := v]> sample in
  v ← getitem jtl_dict "Latency"; let sample := <["lt" := PStr (py_str v)]> sample in
  v ← getitem jtl_dict "Connect"; let sample := <["ct" := PStr (py_str v)]> sample in
  v ← getitem jtl_dict "timeStamp"; let sample := <["ts" := PStr (py_str v)]> sample in
  v ← getitem jtl_dict "success"; let sample := <["s" := v]> sample in
  v ← getitem jtl_dict "label"; let sample := <["lb" := v]> sample in
  v ← getitem jtl_dict "responseCode"; let sample := <["rc" := v]> sample in
  let sample := <["rm" := PStr exc_type_name]> sample in
  v ← getitem jtl_dict "threadName"; let sample := <["tn" := v]> sample in
  let sample := <["dt" := PStr "text"]> sample in
  let sample := <["de" := PStr ""]> sample in
  let sample := <["by" := PStr (pretty (py_len trace))]> sample in
  let sample := <["ng" := PStr "1"]> sample in
  let sample := <["na" := PStr "1"]> sample in
  mret sample.

(** [elapsed_ms] is [int(1000 * (time() - self._time))]: the difference
    of two floating-point readings, which the integer [timeStamp] does
    not determine.  Reading [self._time] comes first on that line, before
    the dict is subscripted. *)
Definition stopTest (elapsed_ms : Z) : M unit :=
  n ← gets test_count;
  modify (set_test_count (n + 1));;
  (* time() - self._time *)
  _ ← attr _time;
  jtl_setitem "elapsed" (PStr (pretty elapsed_ms));;
  le ← gets last_err;
  match le with
  | Some err =>
      let exc_type_name := exc_type_name err in
      trace ← lift (trace_text err);
      jtl_setitem "responseMessage" (PStr exc_type_name);;
      d ← jtl;
      sample ← lift (error_sample d exc_type_name trace);
      label ← jtl_getitem "label";
      on_error_writer (λ w, JTLErrorWriter.add_sample w sample label trace)
  | None => mret ()
  end;;
  (* self.csv_writer.writerow(self.jtl_dict) *)
  fieldnames ← attr csv_writer;
  out ← attr out_stream;
  d ← gets jtl_dict;
  row ← lift (match d with Some d => dict_to_list fieldnames d | None => Raise AttributeError end);
  out ← lift (fwrite out [row]);
  modify (set_out_stream (Some out));;
  (* the report line on sys.stdout *)
  mo ← gets _module_name;
  me ← gets _method_name;
  tc ← gets test_count;
  sc ← gets success;
  modify (λ p, set_stdout (stdout p ++
    [py_str (py_of mo) +:+ "." +:+ py_str (py_of me) +:+ ",Total:" +:+ pretty tc +:+
     " Pass:" +:+ pretty sc +:+ " Failed:" +:+ pretty (tc - sc) +:+ nl]) p);;
  out ← attr out_stream;
  out ← lift (fflush out);
  modify (set_out_stream (Some out)).

(** ** Runs: the callbacks in the order the framework makes them *)

Inductive signal :=
| SigError (err : exc_info)
| SigFailure (err : exc_info)
| SigSkip
| SigSuccess.

Definition deliver (s : signal) : M unit :=
  match s with
  | SigError err => addError err
  | SigFailure err => addFailure err
  | SigSkip => addSkip
  | SigSuccess => addSuccess
  end.

Fixpoint deliver_all (ss : list signal) : M unit :=
  match ss with
  | [] => mret ()
  | s :: ss' => deliver s;; deliver_all ss'
  end.

(** One test: its identity string, the clock reading at its start, the
    outcome signals between start and stop, the time it took. *)
Record test_case := TestCase {
  identity : string;
  start_ms : Z;
  signals : list signal;
  elapsed_ms : Z
}.

(** The callbacks of one test, and of the tests of a run one after the
    other.  The sequence ends with the first callback that raises, in
    the state that callback left; what the framework does with an
    exception of the plugin is not part of this module. *)
Definition run_test (t : test_case) : M unit :=
  startTest (identity t) (start_ms t);;
  deliver_all (signals t);;
  stopTest (elapsed_ms t).

Fixpoint run_tests (ts : list test_case) : M unit :=
  match ts with
  | [] => mret ()
  | t :: ts' => run_test t;; run_tests ts'
  end.

(** A whole run up to, not including, [finalize]. *)
Definition run (output_file err_file : string) (ts : list test_case)
    : TaurusNosePlugin * res unit :=
  (begin;; run_tests ts) (__init__ output_file err_file).


(** ** Observations the specification speaks about *)

Definition is_space (c : Ascii.ascii) : bool := Ascii.eqb c " "%char.
Definition is_newline (c : Ascii.ascii) : bool := Ascii.eqb c Re.newline.

(** The three parts [startTest] takes from an identity string. *)
Definition file_part (test : string) : string := first_or_empty (SEARCH_PATTERNS "file") test.
Definition class_part (test : string) : string := first_or_empty (SEARCH_PATTERNS "class") test.
Definition method_part (test : string) : string := first_or_empty (SEARCH_PATTERNS "method") test.

(** The document as a stream of tokens, and well-formedness: a
    declaration, then one root element whose tags are balanced, then
    nothing. *)
Inductive token :=
| TDecl
| TOpen (tag : string) (attrs : gmap string string)
| TText (s : string)
| TClose (tag : string).

Fixpoint element_tokens (e : element) : list token :=
  match e with
  | Element t a x c =>
      TOpen t a :: match x with Some s => [TText s] | None => [] end ++
      (fix go (l : list element) : list token :=
         match l with
         | [] => []
         | e' :: l' => element_tokens e' ++ go l'
         end) c ++ [TClose t]
  end.

Definition write_tokens (w : xml_write) : list token :=
  match w with
  | WDeclaration => [TDecl]
  | WStartTag t a => [TOpen t a]
  | WElement e => element_tokens e
  | WEndTag t => [TClose t]
  end.

Definition document (ws : list xml_write) : list token := concat (write_tokens <$> ws).

(** [balanced stack ts]: [ts] closes the open elements of [stack]
    (innermost first), the outermost one with its last token. *)
Fixpoint balanced (stack : list string) (ts : list token) : bool :=
  match ts with
  | [] => false
  | TDecl :: _ => false
  | TOpen t _ :: ts' => balanced (t :: stack) ts'
  | TText _ :: ts' => balanced stack ts'
  | TClose t :: ts' =>
      match stack with
      | [] => false
      | [root] => String.eqb t root && bool_decide (ts' = [])
      | top :: stack' => String.eqb t top && balanced stack' ts'
      end
  end.

Definition well_formed (ts : list token) : bool :=
  match ts with
  | TDecl :: TOpen root _ :: ts' => balanced [root] ts'
  | _ => false
  end.

(** The elements written into the root, in order. *)
Definition entries (ws : list xml_write) : list element :=
  omap (λ w, match w with WElement e => Some e | _ => None end) ws.

(** What a run left in the two files. *)
Definition csv_rows (p : TaurusNosePlugin) : list (list string) :=
  match out_stream p with
  | Some f => written f
  | None => []
  end.

Definition xml_writes (p : TaurusNosePlugin) : list xml_write :=
  match err_stream p with
  | Some f => written f
  | None => []
  end.


(** The dict [startTest] leaves in [self.jtl_dict]. *)
Definition start_dict (test : string) (now_ms : Z) : gmap string pyval :=
  <["success" := PStr "false"]>
  (<["allThreads" := PInt 1]>
  (<["grpThreads" := PInt 1]>
  (<["threadName" := PStr (file_part test +:+ "." +:+ class_part test)]>
  (<["label" := PStr (method_part test)]>
  (<["timeStamp" := PInt now_ms]>
  (fromkeys JTL_HEADER (PInt 0))))))).

(** What one outcome signal does to the dict, to the stashed exception
    and to the success counter. *)
Definition signal_dict (s : signal) (d : gmap string pyval) : gmap string pyval :=
  match s with
  | SigError _ => <["responseCode" := PStr "500"]> d
  | SigFailure _ => <["responseCode" := PStr "404"]> d
  | SigSkip => <["responseCode" := PStr "300"]> d
  | SigSuccess =>
      <["responseMessage" := PStr "OK"]>
      (<["success" := PStr "true"]> (<["responseCode" := PStr "200"]> d))
  end.

Definition signal_err (s : signal) (le : option exc_info) : option exc_info :=
  match s with
  | SigError err | SigFailure err => Some err
  | SigSkip | SigSuccess => le
  end.

Definition is_success (s : signal) : bool :=
  match s with
  | SigSuccess => true
  | _ => false
  end.

Definition signals_dict (ss : list signal) (d : gmap string pyval) : gmap string pyval :=
  foldl (λ d s, signal_dict s d) d ss.

(** The exception stashed in [last_err] after the signals [ss]. *)
Definition stashed (ss : list signal) (le : option exc_info) : option exc_info :=
  foldl (λ le s, signal_err s le) le ss.

Definition successes (ss : list signal) : Z :=
  Z.of_nat (length (List.filter is_success ss)).


(** The dict as [stopTest] hands it to the CSV writer: [elapsed] is
    filled in and, with a stashed exception, [responseMessage] is
    overwritten. *)
Definition stop_dict (elapsed_ms : Z) (le : option exc_info) (d : gmap string pyval)
    : gmap string pyval :=
  match le with
  | Some err =>
      <["responseMessage" := PStr (exc_type_name err)]>
      (<["elapsed" := PStr (pretty elapsed_ms)]> d)
  | None => <["elapsed" := PStr (pretty elapsed_ms)]> d
  end.

Definition row_of_dict (d : gmap string pyval) : list string :=
  (λ k, csv_cell (default (PStr "") (d !! k))) <$> JTL_HEADER.

(** The element [stopTest] sends to the error writer, from the dict at
    that point and the stashed exception. *)
Definition diagnostic_entry (d : gmap string pyval) (err : exc_info) : res element :=
  trace ← trace_text err;
  sample ← error_sample d (exc_type_name err) trace;
  label ← getitem d "label";
  JTLErrorWriter.gen_httpSample sample label trace.

(** How [stopTest] ends for that dict and a stashed exception: normally,
    or with what building the diagnostic entry raises. *)
Definition stop_result (d : gmap string pyval) (le : option exc_info) : res unit :=
  match le with
  | Some err =>
      match diagnostic_entry d err with
      | Ok _ => Ok ()
      | Raise e => Raise e
      end
  | None => Ok ()
  end.

Definition new_entry (d : gmap string pyval) (le : option exc_info) : list xml_write :=
  match le with
  | Some err =>
      match diagnostic_entry d err with
      | Ok el => [WElement el]
      | Raise _ => []
      end
  | None => []
  end.

(** The plugin between [begin] and [finalize]: both files open, the
    CSV writer bound, the generator of the error writer at its [yield]. *)
Definition ready (p : TaurusNosePlugin) : Prop :=
  error_writer p = Some Suspended ∧
  csv_writer p = Some JTL_HEADER ∧
  (∃ fo, out_stream p = Some fo ∧ closed fo = false) ∧
  (∃ fe, err_stream p = Some fe ∧ closed fe = false).


(** The response code each signal writes. *)
Definition signal_code (s : signal) : string :=
  match s with
  | SigError _ => "500"
  | SigFailure _ => "404"
  | SigSkip => "300"
  | SigSuccess => "200"
  end.

(** The dict of a test when [stopTest] is called, and the dict it
    writes. *)
Definition test_dict (t : test_case) : gmap string pyval :=
  signals_dict (signals t) (start_dict (identity t) (start_ms t)).

Definition final_dict (t : test_case) : gmap string pyval :=
  stop_dict (elapsed_ms t) (stashed (signals t) None) (test_dict t).

(** The row and the diagnostic entry a test adds to the two files. *)
Definition sample_row (t : test_case) : list string := row_of_dict (final_dict t).

Definition test_entry (t : test_case) : list xml_write :=
  new_entry (final_dict t) (stashed (signals t) None).

(** How the [stopTest] of a test ends. *)
Definition test_result (t : test_case) : res unit :=
  stop_result (final_dict t) (stashed (signals t) None).


(** The keys the outcome callbacks write. *)
Definition outcome_key (k : string) : Prop :=
  k = "responseCode" ∨ k = "success" ∨ k = "responseMessage".

(** The fourteen attributes of an [httpSample] and the element with
    its seven children, written out. *)
Definition http_attrs (t lt ct ts s lb rc rm tn size : string) : gmap string string :=
  list_to_map
    [("t", t); ("lt", lt); ("ct", ct); ("ts", ts); ("s", s); ("lb", lb); ("rc", rc);
     ("rm", rm); ("tn", tn); ("dt", "text"); ("de", ""); ("by", size); ("ng", "1");
     ("na", "1")].

Definition http_sample (t lt ct ts s lb rc rm tn trace : string) : element :=
  Element "httpSample"
    (http_attrs t lt ct ts s lb rc rm tn (pretty (py_len trace)))
    None
    [JTLErrorWriter.gen_resp_header; JTLErrorWriter.gen_req_header;
     Element "responseData" {[ "class" := "java.lang.String" ]} (Some trace) [];
     JTLErrorWriter.gen_cookies; JTLErrorWriter.gen_method; JTLErrorWriter.gen_queryString;
     Element "java.net.URL" ∅ (Some lb) []].

Definition is_err_signal (s : signal) : bool :=
  match s with
  | SigError _ | SigFailure _ => true
  | SigSkip | SigSuccess => false
  end.

(** The value of the [success] cell, and the code with no signal at all. *)
Definition success_text (ss : list signal) : string :=
  if existsb is_success ss then "true" else "false".

Definition code_value (ss : list signal) : pyval :=
  match last ss with
  | Some s => PStr (signal_code s)
  | None => PInt 0
  end.


(** The thread-group name of a test: file part, a dot, class part. *)
Definition thread_name (test : string) : string :=
  file_part test +:+ "." +:+ class_part test.


(** The [responseMessage] cell: the exception type name when one was
    stashed, otherwise ["OK"] after a success signal and the initial
    [0] without. *)
Definition message_text (ss : list signal) : string :=
  match stashed ss None with
  | Some err => exc_type_name err
  | None => if existsb is_success ss then "OK" else "0"
  end.


(** The outcome of a test as its last outcome signal gives it: failure
    or error.  [masked]: an error or failure signal arrived, but a later
    skip or success signal is the last one. *)
Definition outcome_failed (t : test_case) : bool :=
  match last (signals t) with
  | Some s => is_err_signal s
  | None => false
  end.

Definition got_err_signal (t : test_case) : bool := existsb is_err_signal (signals t).

Definition masked (t : test_case) : bool := got_err_signal t && negb (outcome_failed t).

(** Inputs of the scenarios: the failure as the framework reports it,
    with the exception instance, and as it arrives when a [formatError]
    plugin has replaced the instance by the formatted message. *)
Definition value_error : exc_info :=
  ExcInfo "ValueError" (ExcInstance "bad input")
    ["  File calc.py, line 3, in test_div" +:+ nl].

Definition value_error_text : exc_info :=
  ExcInfo "ValueError" (ExcText "bad input")
    ["  File calc.py, line 3, in test_div" +:+ nl].

Definition scenario_B : list test_case :=
  [TestCase "test_add (pkg.module.CalcTest)" 1000 [SigSuccess] 5;
   TestCase "test_div (pkg.module.CalcTest)" 1010 [SigFailure value_error] 7;
   TestCase "test_mul (pkg.module.CalcTest)" 1020 [SigSkip] 0].

Definition scenario_B_text : list test_case :=
  [TestCase "test_add (pkg.module.CalcTest)" 1000 [SigSuccess] 5;
   TestCase "test_div (pkg.module.CalcTest)" 1010 [SigFailure value_error_text] 7;
   TestCase "test_mul (pkg.module.CalcTest)" 1020 [SigSkip] 0].

(** The four outcome codes. *)
Definition outcome_codes : list string := ["200"; "300"; "404"; "500"].


(** Calls on an error writer, in any order. *)
Inductive writer_call :=
| CallAdd (sample : gmap string pyval) (url : pyval) (resp_data : string)
| CallClose.

Definition apply_call (w : JTLErrorWriter.t) (c : writer_call) : JTLErrorWriter.t :=
  match c with
  | CallAdd sample url resp_data => fst (JTLErrorWriter.add_sample w sample url resp_data)
  | CallClose => fst (JTLErrorWriter.close w)
  end.

Definition apply_calls (w : JTLErrorWriter.t) (cs : list writer_call) : JTLErrorWriter.t :=
  foldl apply_call w cs.

(** The entries added while the writer is open: those of the
    [add_sample] calls before the first [close] whose element could be
    built. *)
Fixpoint added_entries (cs : list writer_call) : list element :=
  match cs with
  | [] => []
  | CallClose :: _ => []
  | CallAdd sample url resp_data :: cs' =>
      match JTLErrorWriter.gen_httpSample sample url resp_data with
      | Ok el => el :: added_entries cs'
      | Raise _ => added_entries cs'
      end
  end.


(** The continuation of a lazy star that is followed by the literal
    [stop] and then the end of the pattern: it succeeds in front of a
    [stop] character, with [F] of the input left. *)
Definition stop_at {A} (stop : Ascii.ascii) (F : string → A) (s : string) : option A :=
  match s with
  | String c s' => if Ascii.eqb stop c then Some (F s) else None
  | EmptyString => None
  end.

(** ** Further observations *)

(** The line [stopTest] writes to [sys.stdout], from the names and the
    two counters at that point. *)
Definition report_line (module_name method_name : string) (tests_run passed : Z) : string :=
  module_name +:+ "." +:+ method_name +:+ ",Total:" +:+ pretty tests_run +:+
  " Pass:" +:+ pretty passed +:+ " Failed:" +:+ pretty (tests_run - passed) +:+ nl.

(** The report lines of a run that starts with the counters at
    [tests_run] and [passed]. *)
Fixpoint report_lines (tests_run passed : Z) (ts : list test_case) : list string :=
  match ts with
  | [] => []
  | t :: ts' =>
      let tests_run := tests_run + 1 in
      let passed := passed + successes (signals t) in
      report_line (thread_name (identity t)) (method_part (identity t)) tests_run passed ::
      report_lines tests_run passed ts'
  end.

(** The success signals of a whole run. *)
Definition total_successes (ts : list test_case) : Z :=
  foldr (λ t n, successes (signals t) + n) 0 ts.

(** The tags of the seven children of an [httpSample], in order. *)
Definition http_sample_children : list string :=
  ["responseHeader"; "requestHeader"; "responseData"; "cookies"; "method"; "queryString";
   "java.net.URL"].




(** * Properties *)

(** ** Strings *)

Lemma string_length_app (a b : string) :
  String.length (a +:+ b) = (String.length a + String.length b)%nat.
Proof. induction a as [|c a IH]; simpl; [done | by rewrite IH]. Qed.

Lemma substring_all_app (a b : string) :
  String.substring 0 (String.length a) (a +:+ b) = a.
Proof.
  induction a as [|c a IH]; simpl.
  - by destruct b.
  - by rewrite IH.
Qed.

Lemma consumed_app (a b : string) : Re.consumed (a +:+ b) b = a.
Proof.
  unfold Re.consumed. rewrite string_length_app.
  replace (String.length a + String.length b - String.length b)%nat
    with (String.length a) by lia.
  apply substring_all_app.
Qed.

Lemma has_char_app (c : Ascii.ascii) (a b : string) :
  has_char c (a +:+ String c b) = true.
Proof.
  induction a as [|c' a IH]; simpl.
  - by rewrite Ascii.eqb_refl.
  - rewrite IH. apply orb_true_r.
Qed.

(** ** The identity patterns *)

Section LazyStar.
Context {A : Type} (stop : Ascii.ascii) (F : string → A).

(** The star runs over characters that are neither [stop] nor a
    newline, and stops in front of the first [stop]. *)
Lemma lazy_star_until (m rest : string) :
  all_chars (λ c, negb (Ascii.eqb c stop) && negb (is_newline c)) m = true →
  Re.lazy_star Re.AnyChar (stop_at stop F) (m +:+ String stop rest) =
  Some (F (String stop rest)).
Proof.
  induction m as [|c m IH]; simpl; intros Hm.
  - by rewrite Ascii.eqb_refl.
  - apply andb_prop in Hm as [Hc Hm]. apply andb_prop in Hc as [Hc1 Hc2].
    apply negb_true_iff in Hc1. rewrite Ascii.eqb_sym, Hc1.
    unfold is_newline in Hc2. rewrite Hc2. by apply IH.
Qed.

(** Without a [stop] character the star finds no place to end. *)
Lemma lazy_star_no_stop (a : Re.atom) (s : string) :
  has_char stop s = false → Re.lazy_star a (stop_at stop F) s = None.
Proof.
  induction s as [|c s IH]; simpl; [done|]. intros Hs.
  apply orb_false_elim in Hs as [Hc Hs]. rewrite Hc.
  destruct (Re.atom_matches a c); [by apply IH | done].
Qed.
End LazyStar.

Lemma search_unfold (r : Re.regex) (s : string) :
  Re.search r s =
  match Re.match_here r s with
  | Some g => Some g
  | None =>
      match s with
      | String _ s' => Re.search r s'
      | EmptyString => None
      end
  end.
Proof. by destruct s. Qed.

Lemma method_match_here (s : string) :
  Re.match_here (SEARCH_PATTERNS "method") s =
  Re.lazy_star Re.AnyChar (stop_at " " (Re.consumed s)) s.
Proof. reflexivity. Qed.

(** An identity of the conventional shape, a method name without space
    or newline followed by a space, parses to that method name. *)
Lemma method_part_conventional (m rest : string) :
  all_chars (λ c, negb (is_space c) && negb (is_newline c)) m = true →
  method_part (m +:+ String " " rest) = m.
Proof.
  intros Hm. unfold method_part, first_or_empty, Re.findall_head.
  assert (Re.match_here (SEARCH_PATTERNS "method") (m +:+ String " " rest) = Some m) as E.
  { rewrite method_match_here.
    rewrite (lazy_star_until " " (Re.consumed (m +:+ String " " rest)) m rest).
    - by rewrite consumed_app.
    - exact Hm. }
  by rewrite search_unfold, E.
Qed.

(** Without any space the method pattern does not match. *)
Lemma method_search_no_space (s : string) :
  has_char " " s = false → Re.search (SEARCH_PATTERNS "method") s = None.
Proof.
  induction s as [|c s IH]; intros Hs.
  - reflexivity.
  - assert (Re.match_here (SEARCH_PATTERNS "method") (String c s) = None) as E.
    { rewrite method_match_here.
      by apply (lazy_star_no_stop " " (Re.consumed (String c s))). }
    rewrite search_unfold, E. simpl in Hs.
    apply orb_false_elim in Hs as [_ Hs]. by apply IH.
Qed.

Lemma method_part_no_space (s : string) :
  has_char " " s = false → method_part s = "".
Proof.
  intros Hs. unfold method_part, first_or_empty, Re.findall_head.
  by rewrite method_search_no_space.
Qed.

(** ** The callbacks, one by one *)

Ltac unfold_monad :=
  cbv [mbind mret M_bind M_ret res_bind res_ret gets modify raise lift attr
       jtl jtl_setitem jtl_getitem on_error_writer
       set_module_name set_method_name set_test_count set_success set_csv_writer
       set_jtl_dict set_error_writer set_last_err set_time set_out_stream set_err_stream
       set_stdout
       _module_name _method_name output_file err_file test_count success csv_writer
       jtl_dict error_writer last_err _time out_stream err_stream stdout].

Lemma startTest_eq (test : string) (now_ms : Z) (p : TaurusNosePlugin) :
  startTest test now_ms p =
  (set_jtl_dict (Some (start_dict test now_ms))
     (set_time (Some now_ms)
        (set_last_err None
           (set_method_name (Some (method_part test))
              (set_module_name (Some (file_part test +:+ "." +:+ class_part test)) p)))),
   Ok ()).
Proof.
  destruct p as [mo me outf errf tc sc cw jd ew le tm os es so].
  unfold startTest, start_dict, file_part, class_part, method_part.
  unfold_monad.
  destruct (decide (mo ≠ _)) as [Hne|Heq]; [reflexivity|].
  apply dec_stable in Heq. by subst mo.
Qed.

Lemma deliver_eq (s : signal) (p : TaurusNosePlugin) (d : gmap string pyval) :
  jtl_dict p = Some d →
  deliver s p =
  (set_success (success p + (if is_success s then 1 else 0))
     (set_last_err (signal_err s (last_err p))
        (set_jtl_dict (Some (signal_dict s d)) p)),
   Ok ()).
Proof.
  destruct p as [mo me outf errf tc sc cw jd ew le tm os es so]. simpl. intros ->.
  destruct s; unfold deliver, addError, addFailure, addSkip, addSuccess;
    unfold_monad; simpl; rewrite ?Z.add_0_r; reflexivity.
Qed.

Lemma deliver_all_eq (ss : list signal) (p : TaurusNosePlugin) (d : gmap string pyval) :
  jtl_dict p = Some d →
  deliver_all ss p =
  (set_success (success p + successes ss)
     (set_last_err (stashed ss (last_err p))
        (set_jtl_dict (Some (signals_dict ss d)) p)),
   Ok ()).
Proof.
  revert p d. induction ss as [|s ss IH]; intros p d Hd.
  - destruct p as [mo me outf errf tc sc cw jd ew le tm os es so]. simpl in Hd. subst jd.
    unfold successes. simpl. unfold_monad. by rewrite Z.add_0_r.
  - change (deliver_all (s :: ss)) with (deliver s;; deliver_all ss).
    unfold mbind, M_bind. rewrite (deliver_eq s p d Hd).
    rewrite (IH _ (signal_dict s d)) by (by destruct p).
    destruct p as [mo me outf errf tc sc cw jd ew le tm os es so].
    unfold successes. simpl. unfold_monad. do 2 f_equal.
    destruct s; simpl; lia.
Qed.

Ltac unfold_io :=
  cbv [fwrite fflush fclose closed written JTLErrorWriter.add_sample JTLErrorWriter.send
       JTLErrorWriter.close JTLErrorWriter.xml_writer JTLErrorWriter.out_file_fds
       JTLErrorWriter.__init__ JTLErrorWriter.write_element].

Lemma header_keys_insert (k : string) (v : pyval) (d : gmap string pyval) :
  k ∈ JTL_HEADER →
  dom d ⊆@{gset string} list_to_set JTL_HEADER →
  dom (<[k:=v]> d) ⊆@{gset string} list_to_set JTL_HEADER.
Proof.
  intros Hk Hd. rewrite dom_insert_L.
  intros x [->%elem_of_singleton | Hx]%elem_of_union; [by apply elem_of_list_to_set | auto].
Qed.

Lemma dict_to_list_header (d : gmap string pyval) :
  dom d ⊆@{gset string} list_to_set JTL_HEADER →
  dict_to_list JTL_HEADER d = Ok (row_of_dict d).
Proof. intros Hd. unfold dict_to_list. by rewrite decide_True. Qed.

Lemma stop_dict_keys (elapsed_ms : Z) (le : option exc_info) (d : gmap string pyval) :
  dom d ⊆@{gset string} list_to_set JTL_HEADER →
  dom (stop_dict elapsed_ms le d) ⊆@{gset string} list_to_set JTL_HEADER.
Proof.
  intros Hd. unfold stop_dict.
  destruct le; repeat apply header_keys_insert; try done; compute_done.
Qed.

(** [stopTest] on a plugin that [begin] and [startTest] have set up: it
    ends as [stop_result] says; when it returns normally it has written
    the row, the entry if an exception was stashed, and the report line;
    when it raises it has written nothing, but has counted the test. *)
Lemma stopTest_outcome (elapsed_ms : Z) (p : TaurusNosePlugin) (d : gmap string pyval)
    (mo me : string) :
  ready p →
  jtl_dict p = Some d →
  is_Some (_time p) →
  _module_name p = Some mo →
  _method_name p = Some me →
  dom d ⊆@{gset string} list_to_set JTL_HEADER →
  ∃ p', stopTest elapsed_ms p =
          (p', stop_result (stop_dict elapsed_ms (last_err p) d) (last_err p)) ∧
        test_count p' = test_count p + 1 ∧
        success p' = success p ∧
        match stop_result (stop_dict elapsed_ms (last_err p) d) (last_err p) with
        | Ok _ =>
            ready p' ∧
            csv_rows p' = csv_rows p ++ [row_of_dict (stop_dict elapsed_ms (last_err p) d)] ∧
            xml_writes p' =
              xml_writes p ++ new_entry (stop_dict elapsed_ms (last_err p) d) (last_err p) ∧
            stdout p' = stdout p ++ [report_line mo me (test_count p + 1) (success p)]
        | Raise _ =>
            csv_rows p' = csv_rows p ∧ xml_writes p' = xml_writes p ∧ stdout p' = stdout p
        end.
Proof.
  intros (Hew & Hcw & (fo & Hfo & Hfoc) & (fe & Hfe & Hfec)) Hd [now Htm] Hmo Hme Hdom.
  pose proof (dict_to_list_header _ (stop_dict_keys elapsed_ms (last_err p) d Hdom)) as Hrow.
  destruct p as [mo' me' outf errf tc sc cw jd ew le tm os es so].
  destruct fo as [wo co], fe as [we ce]. simpl in *. subst.
  unfold csv_rows, xml_writes, new_entry, stop_result, diagnostic_entry, ready.
  destruct le as [err|]; cbv [stop_dict] in Hrow |- *.
  - unfold stopTest. unfold_monad.
    destruct (trace_text err) as [trace|e] eqn:Htrace; unfold_monad;
      [|eexists; split; [reflexivity|]; simpl; done].
    destruct (error_sample _ _ _) as [sample|e] eqn:Hsample; unfold_monad;
      [|eexists; split; [reflexivity|]; simpl; done].
    destruct (getitem _ "label") as [label|e] eqn:Hlabel; unfold_monad;
      [|eexists; split; [reflexivity|]; simpl; done].
    unfold_io.
    destruct (JTLErrorWriter.gen_httpSample sample label trace) as [el|e] eqn:Hel;
      unfold_monad; [|eexists; split; [reflexivity|]; simpl; done].
    rewrite Hrow. unfold_monad. unfold_io. unfold_monad.
    eexists. split; [reflexivity|]. simpl.
    split_and!; try done; by eexists.
  - unfold stopTest. unfold_monad. rewrite Hrow. unfold_monad. unfold_io. unfold_monad.
    eexists. split; [reflexivity|]. simpl. rewrite app_nil_r.
    split_and!; try done; by eexists.
Qed.

(** ** The dict of one test *)

Lemma fromkeys_header_lookup (k : string) (v : pyval) :
  k ∈ JTL_HEADER → fromkeys JTL_HEADER v !! k = Some v.
Proof.
  unfold JTL_HEADER, fromkeys. simpl. intros Hk.
  repeat (apply elem_of_cons in Hk as [->|Hk]; [by simplify_map_eq|]).
  by apply elem_of_nil in Hk.
Qed.

Lemma fromkeys_header_keys (v : pyval) :
  dom (fromkeys JTL_HEADER v) ⊆@{gset string} list_to_set JTL_HEADER.
Proof.
  unfold JTL_HEADER, fromkeys. simpl.
  repeat (apply header_keys_insert; [compute_done|]).
  rewrite dom_empty_L. apply empty_subseteq.
Qed.

Lemma start_dict_keys (test : string) (now_ms : Z) :
  dom (start_dict test now_ms) ⊆@{gset string} list_to_set JTL_HEADER.
Proof.
  unfold start_dict.
  do 6 (apply header_keys_insert; [compute_done|]).
  apply fromkeys_header_keys.
Qed.

Lemma signal_dict_keys (s : signal) (d : gmap string pyval) :
  dom d ⊆@{gset string} list_to_set JTL_HEADER →
  dom (signal_dict s d) ⊆@{gset string} list_to_set JTL_HEADER.
Proof.
  intros Hd. destruct s; simpl;
    repeat (apply header_keys_insert; [compute_done|]); done.
Qed.

Lemma signals_dict_keys (ss : list signal) (d : gmap string pyval) :
  dom d ⊆@{gset string} list_to_set JTL_HEADER →
  dom (signals_dict ss d) ⊆@{gset string} list_to_set JTL_HEADER.
Proof.
  revert d. induction ss as [|s ss IH]; intros d Hd; [done|].
  apply IH. by apply signal_dict_keys.
Qed.

Lemma test_dict_keys (t : test_case) :
  dom (test_dict t) ⊆@{gset string} list_to_set JTL_HEADER.
Proof. apply signals_dict_keys, start_dict_keys. Qed.

Lemma signal_dict_other (s : signal) (d : gmap string pyval) (k : string) :
  ¬ outcome_key k → signal_dict s d !! k = d !! k.
Proof.
  unfold outcome_key. intros Hk.
  destruct s; simpl; rewrite ?lookup_insert_ne; try done; intros <-; tauto.
Qed.

Lemma signals_dict_other (ss : list signal) (d : gmap string pyval) (k : string) :
  ¬ outcome_key k → signals_dict ss d !! k = d !! k.
Proof.
  intros Hk. revert d. induction ss as [|s ss IH]; intros d; [done|].
  simpl. rewrite IH. by apply signal_dict_other.
Qed.

(** ** The diagnostic entry *)

Lemma omap_as_str_fmap (m : gmap string string) : omap as_str (PStr <$> m) = m.
Proof.
  apply map_eq. intros i. rewrite lookup_omap, lookup_fmap. by destruct (m !! i) eqn:E.
Qed.

(** With string values only the element is built unless lxml refuses a
    name or a value. *)
Lemma etree_Element_strings (tag : string) (m : gmap string string) :
  etree_Element tag (PStr <$> m) =
  if decide (xml_name tag = true ∧
             map_Forall (λ k v, xml_name k = true ∧ xml_compatible v = true) m)
  then Ok (Element tag m None [])
  else Raise ValueError.
Proof.
  unfold etree_Element. rewrite decide_True.
  - by rewrite omap_as_str_fmap.
  - intros k v (x & <- & _)%lookup_fmap_Some. by eexists.
Qed.

Lemma error_sample_strings (t lt ct ts s lb rc rm tn size : string) :
  <["na" := PStr "1"]>
  (<["ng" := PStr "1"]>
  (<["by" := PStr size]>
  (<["de" := PStr EmptyString]>
  (<["dt" := PStr "text"]>
  (<["tn" := PStr tn]>
  (<["rm" := PStr rm]>
  (<["rc" := PStr rc]>
  (<["lb" := PStr lb]>
  (<["s" := PStr s]>
  (<["ts" := PStr ts]>
  (<["ct" := PStr ct]>
  (<["lt" := PStr lt]>
  (<["t" := PStr t]>
  (fromkeys JTL_ERR_ATRS PNone)))))))))))))) =
  PStr <$> http_attrs t lt ct ts s lb rc rm tn size.
Proof. vm_compute. reflexivity. Qed.

(** The entry, when it can be built: the exception value is a string
    and the element is the one written out in [http_sample]. *)
Lemma diagnostic_entry_inv (d : gmap string pyval) (err : exc_info) (entry : element)
    (el su lb rc tn : string) (lt ct ts : pyval) :
  d !! "elapsed" = Some (PStr el) →
  d !! "Latency" = Some lt →
  d !! "Connect" = Some ct →
  d !! "timeStamp" = Some ts →
  d !! "success" = Some (PStr su) →
  d !! "label" = Some (PStr lb) →
  d !! "responseCode" = Some (PStr rc) →
  d !! "threadName" = Some (PStr tn) →
  diagnostic_entry d err = Ok entry →
  ∃ text,
    exc_value err = ExcText text ∧
    entry =
    http_sample el (py_str lt) (py_str ct) (py_str ts) su lb rc (exc_type_name err) tn
      (String.concat "" (format_tb err) +:+ nl +:+ text).
Proof.
  intros Hel Hlt Hct Hts Hsu Hlb Hrc Htn.
  unfold diagnostic_entry, trace_text.
  destruct (exc_value err) as [message|text]; [done|].
  intros Hentry. exists text. split; [done|]. revert Hentry.
  cbv [mbind res_bind]. unfold error_sample, getitem.
  rewrite Hel, Hlt, Hct, Hts, Hsu, Hlb, Hrc, Htn.
  cbv [mbind mret res_bind res_ret].
  unfold JTLErrorWriter.gen_httpSample.
  rewrite error_sample_strings, etree_Element_strings.
  destruct (decide _) as [_|_]; [|done]. cbv [mbind mret res_bind res_ret].
  unfold JTLErrorWriter.gen_resp_data.
  destruct (xml_compatible (String.concat "" (format_tb err) +:+ nl +:+ text)); [|done].
  unfold JTLErrorWriter.gen_url. destruct (xml_compatible lb); [|done].
  by intros [= <-].
Qed.

(** When the stashed value is the exception instance no entry can be
    built: line 157 raises [TypeError]. *)
Lemma diagnostic_entry_instance (d : gmap string pyval) (err : exc_info) (message : string) :
  exc_value err = ExcInstance message →
  diagnostic_entry d err = Raise TypeError.
Proof. intros H. unfold diagnostic_entry, trace_text. by rewrite H. Qed.
(** ** What the signals leave in the dict *)

Lemma start_dict_lookup (test : string) (now_ms : Z) :
  start_dict test now_ms !! "timeStamp" = Some (PInt now_ms) ∧
  start_dict test now_ms !! "elapsed" = Some (PInt 0) ∧
  start_dict test now_ms !! "label" = Some (PStr (method_part test)) ∧
  start_dict test now_ms !! "responseCode" = Some (PInt 0) ∧
  start_dict test now_ms !! "responseMessage" = Some (PInt 0) ∧
  start_dict test now_ms !! "threadName" =
    Some (PStr (file_part test +:+ "." +:+ class_part test)) ∧
  start_dict test now_ms !! "success" = Some (PStr "false") ∧
  start_dict test now_ms !! "grpThreads" = Some (PInt 1) ∧
  start_dict test now_ms !! "allThreads" = Some (PInt 1) ∧
  start_dict test now_ms !! "Latency" = Some (PInt 0) ∧
  start_dict test now_ms !! "Connect" = Some (PInt 0).
Proof.
  unfold start_dict.
  split_and!; rewrite ?lookup_insert_ne by done;
    rewrite ?lookup_insert_eq; try done; by apply fromkeys_header_lookup; compute_done.
Qed.

Lemma signals_dict_code (ss : list signal) (d : gmap string pyval) :
  signals_dict ss d !! "responseCode" =
  match last ss with
  | Some s => Some (PStr (signal_code s))
  | None => d !! "responseCode"
  end.
Proof.
  revert d. induction ss as [|s ss IH]; intros d; [done|].
  simpl. rewrite IH. destruct ss as [|s' ss].
  - destruct s; simpl; by simplify_map_eq.
  - change (last (s :: s' :: ss)) with (last (s' :: ss)).
    destruct (last (s' :: ss)) eqn:E; [done|]. by apply last_None in E.
Qed.

Lemma signals_dict_success (ss : list signal) (d : gmap string pyval) :
  signals_dict ss d !! "success" =
  if existsb is_success ss then Some (PStr "true") else d !! "success".
Proof.
  revert d. induction ss as [|s ss IH]; intros d; [done|].
  simpl. rewrite IH. destruct (existsb is_success ss).
  - by rewrite orb_true_r.
  - rewrite orb_false_r. destruct s; simpl; by simplify_map_eq.
Qed.

Lemma stashed_Some (ss : list signal) (err : exc_info) :
  stashed ss (Some err) ≠ None.
Proof.
  revert err. induction ss as [|s ss IH]; intros err; [done|].
  destruct s; simpl; apply IH.
Qed.

(** An exception is stashed exactly when an error or failure signal
    arrived. *)
Lemma stashed_None (ss : list signal) :
  stashed ss None = None ↔ existsb is_err_signal ss = false.
Proof.
  induction ss as [|s ss IH]; [done|].
  destruct s; simpl; try done; split; try done; intros H; by apply stashed_Some in H.
Qed.

Lemma stashed_last (ss : list signal) (err : exc_info) :
  stashed ss None = Some err → ∃ s, last ss = Some s.
Proof.
  destruct ss as [|s ss] using rev_ind; [done|]. intros _. exists s. apply last_snoc.
Qed.

Lemma test_dict_lookup (t : test_case) :
  test_dict t !! "timeStamp" = Some (PInt (start_ms t)) ∧
  test_dict t !! "label" = Some (PStr (method_part (identity t))) ∧
  test_dict t !! "threadName" =
    Some (PStr (file_part (identity t) +:+ "." +:+ class_part (identity t))) ∧
  test_dict t !! "Latency" = Some (PInt 0) ∧
  test_dict t !! "Connect" = Some (PInt 0) ∧
  test_dict t !! "grpThreads" = Some (PInt 1) ∧
  test_dict t !! "allThreads" = Some (PInt 1) ∧
  test_dict t !! "success" = Some (PStr (success_text (signals t))) ∧
  test_dict t !! "responseCode" = Some (code_value (signals t)).
Proof.
  destruct (start_dict_lookup (identity t) (start_ms t))
    as (Hts & _ & Hlb & Hrc & _ & Htn & Hsu & Hg & Ha & Hl & Hc).
  unfold test_dict.
  split_and!; try (rewrite signals_dict_other by (by intros [?|[?|?]]); done).
  - rewrite signals_dict_success, Hsu. unfold success_text.
    by destruct (existsb is_success (signals t)).
  - rewrite signals_dict_code, Hrc. unfold code_value. by destruct (last (signals t)).
Qed.


Lemma final_dict_entry_inv (t : test_case) (err : exc_info) (entry : element) :
  stashed (signals t) None = Some err →
  diagnostic_entry (final_dict t) err = Ok entry →
  ∃ s text,
    last (signals t) = Some s ∧
    exc_value err = ExcText text ∧
    entry =
    http_sample (pretty (elapsed_ms t)) "0" "0" (pretty (start_ms t))
      (success_text (signals t)) (method_part (identity t)) (signal_code s)
      (exc_type_name err) (thread_name (identity t))
      (String.concat "" (format_tb err) +:+ nl +:+ text).
Proof.
  intros Hst Hentry. destruct (stashed_last _ _ Hst) as [s Hs].
  destruct (test_dict_lookup t) as (Hts & Hlb & Htn & Hl & Hc & _ & _ & Hsu & Hrc).
  unfold code_value in Hrc. rewrite Hs in Hrc.
  unfold final_dict, stop_dict in Hentry. rewrite Hst in Hentry.
  set (d := <["responseMessage" := PStr (exc_type_name err)]>
              (<["elapsed" := PStr (pretty (elapsed_ms t))]> (test_dict t))) in *.
  assert (d !! "elapsed" = Some (PStr (pretty (elapsed_ms t)))) as H1
    by (unfold d; by rewrite lookup_insert_ne, lookup_insert_eq).
  assert (∀ k, k ≠ "responseMessage" → k ≠ "elapsed" → d !! k = test_dict t !! k) as Hk
    by (intros k ? ?; unfold d; by rewrite !lookup_insert_ne).
  pose proof (diagnostic_entry_inv d err entry (pretty (elapsed_ms t))
                (success_text (signals t)) (method_part (identity t)) (signal_code s)
                (thread_name (identity t)) (PInt 0) (PInt 0) (PInt (start_ms t)) H1) as Hinv.
  rewrite !Hk in Hinv by done.
  destruct (Hinv Hl Hc Hts Hsu Hlb Hrc Htn Hentry) as (text & Htext & Heq).
  by exists s, text.
Qed.

(** ** One test on a plugin that is ready *)

Lemma run_test_outcome (t : test_case) (p : TaurusNosePlugin) :
  ready p →
  ∃ p', run_test t p = (p', test_result t) ∧
        test_count p' = test_count p + 1 ∧
        success p' = success p + successes (signals t) ∧
        match test_result t with
        | Ok _ =>
            ready p' ∧
            csv_rows p' = csv_rows p ++ [sample_row t] ∧
            xml_writes p' = xml_writes p ++ test_entry t ∧
            stdout p' =
              stdout p ++
              [report_line (thread_name (identity t)) (method_part (identity t))
                 (test_count p + 1) (success p + successes (signals t))]
        | Raise _ =>
            csv_rows p' = csv_rows p ∧ xml_writes p' = xml_writes p ∧ stdout p' = stdout p
        end.
Proof.
  intros Hp. unfold run_test, mbind, M_bind.
  rewrite startTest_eq.
  erewrite deliver_all_eq by (by destruct p).
  match goal with |- context [stopTest _ ?q] => set (p1 := q) end.
  destruct (stopTest_outcome (elapsed_ms t) p1 (test_dict t)
              (thread_name (identity t)) (method_part (identity t)))
    as (p' & Hrun & Htc & Hsc & Hout).
  - destruct p; apply Hp.
  - by destruct p.
  - destruct p; by eexists.
  - by destruct p.
  - by destruct p.
  - apply test_dict_keys.
  - replace (last_err p1) with (stashed (signals t) None) in Hrun, Hout by (by destruct p).
    replace (csv_rows p1) with (csv_rows p) in Hout by (by destruct p).
    replace (xml_writes p1) with (xml_writes p) in Hout by (by destruct p).
    replace (stdout p1) with (stdout p) in Hout by (by destruct p).
    replace (test_count p1) with (test_count p) in Htc, Hout by (by destruct p).
    replace (success p1) with (success p + successes (signals t)) in Hsc, Hout
      by (by destruct p).
    exists p'. fold (final_dict t) in Hrun, Hout. fold (test_result t) in Hrun, Hout.
    fold (sample_row t) in Hout. fold (test_entry t) in Hout.
    rewrite Hrun. done.
Qed.

Lemma begin_ready (output_file err_file : string) :
  ∃ p, begin (__init__ output_file err_file) = (p, Ok ()) ∧
       ready p ∧
       csv_rows p = [JTL_HEADER] ∧
       xml_writes p = [WDeclaration; WStartTag "testResults" testResults_attrs] ∧
       test_count p = 0 ∧ success p = 0 ∧ stdout p = [].
Proof.
  eexists. split; [reflexivity|]. unfold ready. simpl. split_and!; try done; by eexists.
Qed.

(** A run goes through when the [stopTest] of every test does. *)
Lemma run_tests_ok (ts : list test_case) (p : TaurusNosePlugin) :
  ready p →
  Forall (λ t, test_result t = Ok ()) ts →
  ∃ p', run_tests ts p = (p', Ok ()) ∧
        ready p' ∧
        csv_rows p' = csv_rows p ++ (sample_row <$> ts) ∧
        xml_writes p' = xml_writes p ++ concat (test_entry <$> ts) ∧
        test_count p' = test_count p + Z.of_nat (length ts) ∧
        success p' = success p + total_successes ts ∧
        stdout p' = stdout p ++ report_lines (test_count p) (success p) ts.
Proof.
  intros Hp Hts. revert p Hp. induction Hts as [|t ts Ht _ IH]; intros p Hp.
  - exists p. simpl. rewrite !app_nil_r, !Z.add_0_r. done.
  - destruct (run_test_outcome t p Hp) as (p1 & Hrun1 & Htc1 & Hsc1 & Hout1).
    rewrite Ht in Hrun1, Hout1. destruct Hout1 as (Hp1 & Hrows1 & Hxml1 & Hstd1).
    destruct (IH p1 Hp1) as (p' & Hrun & Hp' & Hrows & Hxml & Htc & Hsc & Hstd).
    exists p'. change (run_tests (t :: ts)) with (run_test t;; run_tests ts).
    unfold mbind, M_bind. rewrite Hrun1, Hrun.
    rewrite Hrows, Hxml, Htc, Hsc, Hstd, Hrows1, Hxml1, Htc1, Hsc1, Hstd1. simpl.
    rewrite <- !app_assoc. split_and!; try done; lia.
Qed.

(** A run stops at the first test whose [stopTest] raises: the tests
    before it have their rows and entries, that test is counted and
    leaves nothing. *)
Lemma run_tests_raise (ts : list test_case) (t : test_case) (after : list test_case)
    (e : exn) (p : TaurusNosePlugin) :
  ready p →
  Forall (λ t, test_result t = Ok ()) ts →
  test_result t = Raise e →
  ∃ p', run_tests (ts ++ t :: after) p = (p', Raise e) ∧
        csv_rows p' = csv_rows p ++ (sample_row <$> ts) ∧
        xml_writes p' = xml_writes p ++ concat (test_entry <$> ts) ∧
        test_count p' = test_count p + Z.of_nat (length ts) + 1 ∧
        stdout p' = stdout p ++ report_lines (test_count p) (success p) ts.
Proof.
  intros Hp Hts Ht. revert p Hp. induction Hts as [|t0 ts Ht0 _ IH]; intros p Hp.
  - destruct (run_test_outcome t p Hp) as (p1 & Hrun1 & Htc1 & _ & Hout1).
    rewrite Ht in Hrun1, Hout1. destruct Hout1 as (Hrows1 & Hxml1 & Hstd1).
    exists p1. change (run_tests ([] ++ t :: after)) with (run_test t;; run_tests after).
    unfold mbind, M_bind. rewrite Hrun1. simpl. rewrite !app_nil_r, Z.add_0_r. done.
  - destruct (run_test_outcome t0 p Hp) as (p1 & Hrun1 & Htc1 & Hsc1 & Hout1).
    rewrite Ht0 in Hrun1, Hout1. destruct Hout1 as (Hp1 & Hrows1 & Hxml1 & Hstd1).
    destruct (IH p1 Hp1) as (p' & Hrun & Hrows & Hxml & Htc & Hstd).
    exists p'.
    change (run_tests ((t0 :: ts) ++ t :: after))
      with (run_test t0;; run_tests (ts ++ t :: after)).
    unfold mbind, M_bind. rewrite Hrun1, Hrun.
    rewrite Hrows, Hxml, Htc, Hstd, Hrows1, Hxml1, Htc1, Hsc1, Hstd1. simpl.
    rewrite <- !app_assoc. split_and!; try done; lia.
Qed.

Lemma run_tests_ok_inv (ts : list test_case) (p p' : TaurusNosePlugin) :
  ready p →
  run_tests ts p = (p', Ok ()) →
  Forall (λ t, test_result t = Ok ()) ts.
Proof.
  revert p. induction ts as [|t ts IH]; intros p Hp Hrun; [constructor|].
  destruct (run_test_outcome t p Hp) as (p1 & Hrun1 & _ & _ & Hout1).
  change (run_tests (t :: ts)) with (run_test t;; run_tests ts) in Hrun.
  unfold mbind, M_bind in Hrun. rewrite Hrun1 in Hrun.
  destruct (test_result t) as [[]|e] eqn:Ht; [|done].
  constructor; [done|]. destruct Hout1 as (Hp1 & _). by apply (IH p1).
Qed.

(** A whole run that returns: what it leaves. *)
Lemma run_ok (output_file err_file : string) (ts : list test_case) :
  Forall (λ t, test_result t = Ok ()) ts →
  ∃ p, run output_file err_file ts = (p, Ok ()) ∧
       ready p ∧
       csv_rows p = JTL_HEADER :: (sample_row <$> ts) ∧
       xml_writes p =
         WDeclaration :: WStartTag "testResults" testResults_attrs ::
         concat (test_entry <$> ts) ∧
       test_count p = Z.of_nat (length ts) ∧
       success p = total_successes ts ∧
       stdout p = report_lines 0 0 ts.
Proof.
  intros Hts.
  destruct (begin_ready output_file err_file)
    as (p0 & Hb & Hp0 & Hrows0 & Hxml0 & Htc0 & Hsc0 & Hstd0).
  destruct (run_tests_ok ts p0 Hp0 Hts) as (p & Hrun & Hp & Hrows & Hxml & Htc & Hsc & Hstd).
  exists p. unfold run, mbind, M_bind. rewrite Hb, Hrun.
  rewrite Hrows, Hxml, Htc, Hsc, Hstd, Hrows0, Hxml0, Htc0, Hsc0, Hstd0. done.
Qed.

Lemma run_ok_inv (output_file err_file : string) (ts : list test_case)
    (p : TaurusNosePlugin) :
  run output_file err_file ts = (p, Ok ()) →
  Forall (λ t, test_result t = Ok ()) ts.
Proof.
  destruct (begin_ready output_file err_file) as (p0 & Hb & Hp0 & _).
  unfold run, mbind, M_bind. rewrite Hb. by apply run_tests_ok_inv.
Qed.

Lemma run_facts (output_file err_file : string) (ts : list test_case)
    (p : TaurusNosePlugin) :
  run output_file err_file ts = (p, Ok ()) →
  Forall (λ t, test_result t = Ok ()) ts ∧
  ready p ∧
  csv_rows p = JTL_HEADER :: (sample_row <$> ts) ∧
  xml_writes p =
    WDeclaration :: WStartTag "testResults" testResults_attrs ::
    concat (test_entry <$> ts) ∧
  test_count p = Z.of_nat (length ts) ∧
  success p = total_successes ts ∧
  stdout p = report_lines 0 0 ts.
Proof.
  intros Hrun. pose proof (run_ok_inv _ _ _ _ Hrun) as Hts. split; [done|].
  destruct (run_ok output_file err_file ts Hts) as (p' & Hrun' & Hfacts).
  rewrite Hrun in Hrun'. by injection Hrun' as <-.
Qed.

(** A run that returns after one more test: the run of the tests before
    it returned too, and the last test appended its row and its entry. *)
Lemma run_snoc_inv (output_file err_file : string) (before : list test_case)
    (t : test_case) (p : TaurusNosePlugin) :
  run output_file err_file (before ++ [t]) = (p, Ok ()) →
  ∃ p0,
    run output_file err_file before = (p0, Ok ()) ∧
    test_result t = Ok () ∧
    csv_rows p = csv_rows p0 ++ [sample_row t] ∧
    xml_writes p = xml_writes p0 ++ test_entry t.
Proof.
  intros Hrun. destruct (run_facts _ _ _ _ Hrun) as (Hts & _ & Hrows & Hxml & _).
  apply Forall_app in Hts as [Hbefore [Ht _]%Forall_cons].
  destruct (run_ok output_file err_file before Hbefore)
    as (p0 & Hrun0 & _ & Hrows0 & Hxml0 & _).
  exists p0. split_and!; try done.
  - rewrite Hrows, Hrows0, fmap_app. done.
  - rewrite Hxml, Hxml0, fmap_app, concat_app. simpl. by rewrite app_nil_r.
Qed.

(** One more test after a run that returned. *)
Lemma run_snoc_outcome (output_file err_file : string) (before : list test_case)
    (t : test_case) (p0 : TaurusNosePlugin) :
  run output_file err_file before = (p0, Ok ()) →
  ∃ p,
    run output_file err_file (before ++ [t]) = (p, test_result t) ∧
    test_count p = test_count p0 + 1 ∧
    match test_result t with
    | Ok _ =>
        csv_rows p = csv_rows p0 ++ [sample_row t] ∧
        xml_writes p = xml_writes p0 ++ test_entry t
    | Raise _ =>
        csv_rows p = csv_rows p0 ∧ xml_writes p = xml_writes p0 ∧ stdout p = stdout p0
    end.
Proof.
  intros Hrun0. destruct (run_facts _ _ _ _ Hrun0) as (Hbefore & Hp0 & Hrows0 & Hxml0 & Htc0 & _ & Hstd0).
  destruct (test_result t) as [[]|e] eqn:Ht.
  - assert (Forall (λ t, test_result t = Ok ()) (before ++ [t])) as Hts.
    { apply Forall_app. split; [done|]. by constructor. }
    destruct (run_ok output_file err_file _ Hts) as (p & Hrun & _ & Hrows & Hxml & Htc & _).
    exists p. split_and!; try done.
    + rewrite Htc, Htc0, length_app. simpl. lia.
    + rewrite Hrows, Hrows0, fmap_app. done.
    + rewrite Hxml, Hxml0, fmap_app, concat_app. simpl. by rewrite app_nil_r.
  - destruct (begin_ready output_file err_file)
      as (pb & Hb & Hpb & Hrowsb & Hxmlb & Htcb & Hscb & Hstdb).
    destruct (run_tests_raise before t [] e pb Hpb Hbefore Ht)
      as (p & Hrun & Hrows & Hxml & Htc & Hstd).
    exists p. unfold run, mbind, M_bind. rewrite Hb, Hrun. split_and!; try done.
    + rewrite Htc, Htc0, Htcb. lia.
    + by rewrite Hrows, Hrows0, Hrowsb.
    + by rewrite Hxml, Hxml0, Hxmlb.
    + by rewrite Hstd, Hstd0, Hstdb, Htcb, Hscb.
Qed.

Lemma signals_dict_message (ss : list signal) (d : gmap string pyval) :
  signals_dict ss d !! "responseMessage" =
  if existsb is_success ss then Some (PStr "OK") else d !! "responseMessage".
Proof.
  revert d. induction ss as [|s ss IH]; intros d; [done|].
  simpl. rewrite IH. destruct (existsb is_success ss).
  - by rewrite orb_true_r.
  - rewrite orb_false_r. destruct s; simpl; by simplify_map_eq.
Qed.
(** The row of a test, cell by cell. *)
(** The row of a test, cell by cell. *)
Lemma sample_row_eq (t : test_case) :
  sample_row t =
  [pretty (start_ms t); pretty (elapsed_ms t); method_part (identity t);
   csv_cell (code_value (signals t)); message_text (signals t); thread_name (identity t);
   success_text (signals t); "1"; "1"; "0"; "0"].
Proof.
  destruct (test_dict_lookup t) as (Hts & Hlb & Htn & Hl & Hc & Hg & Ha & Hsu & Hrc).
  assert (test_dict t !! "responseMessage" =
          Some (if existsb is_success (signals t) then PStr "OK" else PInt 0)) as Hrm.
  { unfold test_dict. rewrite signals_dict_message.
    destruct (start_dict_lookup (identity t) (start_ms t)) as (_ & _ & _ & _ & -> & _).
    by destruct (existsb is_success (signals t)). }
  unfold sample_row, row_of_dict, final_dict, stop_dict, message_text, JTL_HEADER.
  destruct (stashed (signals t) None) as [err|]; simpl;
    rewrite ?lookup_insert_eq; rewrite ?lookup_insert_ne by done;
    rewrite ?lookup_insert_eq; rewrite ?lookup_insert_ne by done;
    rewrite ?Hts, ?Hlb, ?Htn, ?Hl, ?Hc, ?Hg, ?Ha, ?Hsu, ?Hrc, ?Hrm; simpl; try done.
  by destruct (existsb is_success (signals t)).
Qed.
Lemma run_returns (output_file err_file : string) (ts : list test_case) :
  snd (run output_file err_file ts) = Ok () →
  run output_file err_file ts = (fst (run output_file err_file ts), Ok ()).
Proof. intros H. rewrite <- H. apply surjective_pairing. Qed.

(** ** The tabular sample log *)

(** C1, on the input that breaks it: a run of one test that fails with
    the exception as the framework reports it.  [stopTest] raises
    [TypeError] where it builds the trace (string plus exception
    instance), after counting the test and before writing its row: one
    test was processed and the log has the header and no data row. *)
Theorem C1_failing_run :
  let t_div := TestCase "test_div (pkg.module.CalcTest)" 1010 [SigFailure value_error] 7 in
  snd (run "out.csv" "err.xml" [t_div]) = Raise TypeError ∧
  test_count (fst (run "out.csv" "err.xml" [t_div])) = 1 ∧
  csv_rows (fst (run "out.csv" "err.xml" [t_div])) = [JTL_HEADER].
Proof. vm_compute. done. Qed.

(** ** The diagnostic document *)

Lemma entries_app (ws1 ws2 : list xml_write) :
  entries (ws1 ++ ws2) = entries ws1 ++ entries ws2.
Proof. apply omap_app. Qed.
(** A test whose [stopTest] returns adds one entry if an exception is
    stashed when it stops, which then has a string as its value, and
    none otherwise. *)
Lemma test_entry_cases (t : test_case) :
  test_result t = Ok () →
  (stashed (signals t) None = None ∧ got_err_signal t = false ∧ test_entry t = []) ∨
  (∃ err s text,
     stashed (signals t) None = Some err ∧ exc_value err = ExcText text ∧
     got_err_signal t = true ∧ last (signals t) = Some s ∧
     test_entry t =
     [WElement
        (http_sample (pretty (elapsed_ms t)) "0" "0" (pretty (start_ms t))
           (success_text (signals t)) (method_part (identity t)) (signal_code s)
           (exc_type_name err) (thread_name (identity t))
           (String.concat "" (format_tb err) +:+ nl +:+ text))]).
Proof.
  unfold test_result, stop_result, test_entry, new_entry, got_err_signal.
  destruct (stashed (signals t) None) as [err|] eqn:Hst.
  - destruct (diagnostic_entry (final_dict t) err) as [entry|e] eqn:Hentry; [|done].
    intros _. right.
    destruct (final_dict_entry_inv t err entry Hst Hentry) as (s & text & Hs & Htext & ->).
    exists err, s, text. split_and!; try done.
    destruct (existsb is_err_signal (signals t)) eqn:E; [done|].
    apply stashed_None in E. congruence.
  - intros _. left. by apply stashed_None in Hst.
Qed.

Lemma entries_tests (ts : list test_case) :
  Forall (λ t, test_result t = Ok ()) ts →
  length (entries (concat (test_entry <$> ts))) = length (List.filter got_err_signal ts).
Proof.
  induction 1 as [|t ts Ht _ IH]; [done|].
  rewrite fmap_cons. change (concat (?x :: ?l)) with (x ++ concat l).
  rewrite entries_app, length_app, IH.
  change (List.filter got_err_signal (t :: ts))
    with (if got_err_signal t then t :: List.filter got_err_signal ts
          else List.filter got_err_signal ts).
  destruct (test_entry_cases t Ht) as [(_ & -> & ->)|(err & s & text & _ & _ & -> & _ & ->)];
    done.
Qed.

Lemma masked_split (ts : list test_case) :
  length (List.filter got_err_signal ts) =
  (length (List.filter outcome_failed ts) + length (List.filter masked ts))%nat.
Proof.
  induction ts as [|t ts IH]; [done|].
  assert (outcome_failed t = true → got_err_signal t = true) as Himp.
  { unfold outcome_failed, got_err_signal.
    destruct (signals t) as [|s ss] using rev_ind; [done|].
    rewrite last_snoc, existsb_app. simpl. intros ->. by rewrite orb_true_r. }
  simpl. unfold masked at 1.
  destruct (outcome_failed t); [rewrite Himp by done|destruct (got_err_signal t)];
    simpl; lia.
Qed.
(** C2, as the code has it: in a run that no callback ends with an
    exception, the number of entries of the diagnostic document is the
    number of tests that received an error or failure signal between
    start and stop.  These are the tests whose last signal was a failure
    or error, plus those where a later skip or success signal became the
    outcome. *)
Theorem C2_diagnostic_entry_count (output_file err_file : string) (tests : list test_case)
    (p : TaurusNosePlugin) :
  run output_file err_file tests = (p, Ok ()) →
  length (entries (xml_writes p)) = length (List.filter got_err_signal tests) ∧
  length (entries (xml_writes p)) =
    (length (List.filter outcome_failed tests) + length (List.filter masked tests))%nat.
Proof.
  intros Hrun. destruct (run_facts _ _ _ _ Hrun) as (Hts & _ & _ & Hxml & _).
  rewrite Hxml.
  change (entries (WDeclaration :: WStartTag "testResults" testResults_attrs :: ?l))
    with (entries l).
  rewrite entries_tests by done. split; [done|]. apply masked_split.
Qed.

Lemma C2_witness :
  run "out.csv" "err.xml" scenario_B_text =
    (fst (run "out.csv" "err.xml" scenario_B_text), Ok ()) ∧
  length (entries (xml_writes (fst (run "out.csv" "err.xml" scenario_B_text)))) =
    length (List.filter got_err_signal scenario_B_text).
Proof.
  assert (run "out.csv" "err.xml" scenario_B_text =
            (fst (run "out.csv" "err.xml" scenario_B_text), Ok ())) as Hrun
    by (apply run_returns; vm_compute; reflexivity).
  split; [exact Hrun|].
  exact (proj1 (C2_diagnostic_entry_count _ _ _ _ Hrun)).
Defined.

(** A failure followed by a skip: the outcome by the last signal is
    skip, no test failed or erred, and yet the document has an entry. *)
Lemma C2_counterexample :
  let tests :=
    [TestCase "test_div (pkg.module.CalcTest)" 1010
       [SigFailure value_error_text; SigSkip] 7] in
  snd (run "out.csv" "err.xml" tests) = Ok () ∧
  length (entries (xml_writes (fst (run "out.csv" "err.xml" tests)))) = 1%nat ∧
  length (List.filter outcome_failed tests) = 0%nat.
Proof. vm_compute. done. Qed.

(** ** Response code and success flag *)

Lemma existsb_is_success (ss : list signal) :
  existsb is_success ss = true ↔ SigSuccess ∈ ss.
Proof.
  rewrite existsb_exists. split.
  - intros (s & Hs%list_elem_of_In & Hsucc). by destruct s.
  - intros Hs. exists SigSuccess. by rewrite <- list_elem_of_In.
Qed.
Lemma success_text_true (ss : list signal) :
  success_text ss = "true" ↔ SigSuccess ∈ ss.
Proof.
  rewrite <- existsb_is_success. unfold success_text.
  by destruct (existsb is_success ss).
Qed.
Lemma signal_code_200 (s : signal) : signal_code s = "200" ↔ s = SigSuccess.
Proof. by destruct s. Qed.
Lemma signal_code_outcome (s : signal) : signal_code s ∈ outcome_codes.
Proof. destruct s; compute_done. Qed.
(** C3, as the code has it: in the row of a test that received at least
    one outcome signal between start and stop, responseCode is the code
    of the last signal, one of 200, 300, 404 and 500; success is "true"
    exactly when a success signal arrived.  So responseCode 200 implies
    success "true", and the two are equivalent when no success signal
    was followed by another signal, in particular with a single
    signal. *)
Theorem C3_response_code (output_file err_file : string) (before : list test_case)
    (t : test_case) (ss : list signal) (s : signal) (p : TaurusNosePlugin) :
  signals t = ss ++ [s] →
  run output_file err_file (before ++ [t]) = (p, Ok ()) →
  ∃ p0 row,
    run output_file err_file before = (p0, Ok ()) ∧
    csv_rows p = csv_rows p0 ++ [row] ∧
    row !! 3%nat = Some (signal_code s) ∧
    signal_code s ∈ outcome_codes ∧
    (row !! 6%nat = Some "true" ↔ SigSuccess ∈ signals t) ∧
    (row !! 3%nat = Some "200" → row !! 6%nat = Some "true") ∧
    (SigSuccess ∉ ss → (row !! 6%nat = Some "true" ↔ row !! 3%nat = Some "200")).
Proof.
  intros Hss Hrun.
  destruct (run_snoc_inv _ _ _ _ _ Hrun) as (p0 & Hrun0 & _ & Hrows & _).
  exists p0, (sample_row t). split_and!; try done.
  - rewrite sample_row_eq. simpl. unfold code_value. by rewrite Hss, last_snoc.
  - apply signal_code_outcome.
  - rewrite sample_row_eq. simpl. rewrite <- success_text_true.
    split; [by intros [= H] | by intros ->].
  - rewrite sample_row_eq. simpl. unfold code_value. rewrite Hss, last_snoc. simpl.
    intros [= ->%signal_code_200]. f_equal. apply success_text_true.
    rewrite ?Hss, elem_of_app, list_elem_of_singleton. by right.
  - intros Hnot. rewrite sample_row_eq. simpl. unfold code_value.
    rewrite Hss, last_snoc. simpl. split.
    + intros [= Hsucc%success_text_true]. f_equal. apply signal_code_200.
      rewrite ?Hss, elem_of_app, list_elem_of_singleton in Hsucc. by destruct Hsucc.
    + intros [= ->%signal_code_200]. f_equal. apply success_text_true.
      rewrite ?Hss, elem_of_app, list_elem_of_singleton. by right.
Qed.

Lemma C3_witness :
  let t := TestCase "test_add (pkg.module.CalcTest)" 1000 [SigSuccess] 5 in
  signals t = [] ++ [SigSuccess] ∧
  run "out.csv" "err.xml" ([] ++ [t]) = (fst (run "out.csv" "err.xml" ([] ++ [t])), Ok ()) ∧
  ∃ p0 row,
    run "out.csv" "err.xml" [] = (p0, Ok ()) ∧
    csv_rows (fst (run "out.csv" "err.xml" ([] ++ [t]))) = csv_rows p0 ++ [row] ∧
    row !! 3%nat = Some "200" ∧ row !! 6%nat = Some "true".
Proof.
  intros t.
  assert (run "out.csv" "err.xml" ([] ++ [t]) =
            (fst (run "out.csv" "err.xml" ([] ++ [t])), Ok ())) as Hrun
    by (apply run_returns; vm_compute; reflexivity).
  split; [reflexivity|]. split; [exact Hrun|].
  destruct (C3_response_code "out.csv" "err.xml" [] t [] SigSuccess _ eq_refl Hrun)
    as (p0 & row & Hrun0 & Hrows & Hcode & _ & _ & Himp & _).
  exists p0, row. split; [exact Hrun0|]. split; [exact Hrows|].
  split; [exact Hcode|]. exact (Himp Hcode).
Defined.

(** Without any signal the responseCode cell is the initial 0, none of
    the four codes; with a success signal followed by a failure signal
    the code is 404 while success stays "true". *)
Lemma C3_counterexample :
  let t0 := TestCase "test_add (pkg.module.CalcTest)" 1000 [] 5 in
  let t1 := TestCase "test_add (pkg.module.CalcTest)" 1000
              [SigSuccess; SigFailure value_error_text] 5 in
  snd (run "out.csv" "err.xml" [t0]) = Ok () ∧
  csv_rows (fst (run "out.csv" "err.xml" [t0])) =
    [JTL_HEADER;
     ["1000"; "5"; "test_add"; "0"; "0"; "pkg.module.CalcTest"; "false"; "1"; "1"; "0"; "0"]] ∧
  ("0" ∉ outcome_codes) ∧
  snd (run "out.csv" "err.xml" [t1]) = Ok () ∧
  csv_rows (fst (run "out.csv" "err.xml" [t1])) =
    [JTL_HEADER;
     ["1000"; "5"; "test_add"; "404"; "ValueError"; "pkg.module.CalcTest"; "true";
      "1"; "1"; "0"; "0"]].
Proof.
  split_and!; try (vm_compute; reflexivity). compute_done.
Qed.

(** ** Stashed exceptions *)

Lemma http_sample_attrib (t lt ct ts s lb rc rm tn trace : string) :
  let el := http_sample t lt ct ts s lb rc rm tn trace in
  tag_of el = "httpSample" ∧
  attrib_of el !! "rm" = Some rm ∧
  attrib_of el !! "rc" = Some rc ∧
  attrib_of el !! "tn" = Some tn ∧
  attrib_of el !! "lb" = Some lb ∧
  attrib_of el !! "s" = Some s ∧
  tag_of <$> children_of el !! 2%nat = Some "responseData" ∧
  text_of <$> children_of el !! 2%nat = Some (Some trace).
Proof. simpl. unfold http_attrs. split_and!; try done; by simplify_map_eq. Qed.

Lemma stashed_app (ss1 ss2 : list signal) (le : option exc_info) :
  stashed (ss1 ++ ss2) le = stashed ss2 (stashed ss1 le).
Proof. apply foldl_app. Qed.
(** A test with a stashed exception whose [stopTest] returned: what it
    appended to both files. *)
Lemma run_snoc_stashed (output_file err_file : string) (before : list test_case)
    (t : test_case) (err : exc_info) (p : TaurusNosePlugin) :
  stashed (signals t) None = Some err →
  run output_file err_file (before ++ [t]) = (p, Ok ()) →
  ∃ p0 s text,
    run output_file err_file before = (p0, Ok ()) ∧
    exc_value err = ExcText text ∧
    last (signals t) = Some s ∧
    csv_rows p = csv_rows p0 ++ [sample_row t] ∧
    xml_writes p =
      xml_writes p0 ++
      [WElement
         (http_sample (pretty (elapsed_ms t)) "0" "0" (pretty (start_ms t))
            (success_text (signals t)) (method_part (identity t)) (signal_code s)
            (exc_type_name err) (thread_name (identity t))
            (String.concat "" (format_tb err) +:+ nl +:+ text))].
Proof.
  intros Hst Hrun.
  destruct (run_snoc_inv _ _ _ _ _ Hrun) as (p0 & Hrun0 & Ht & Hrows & Hxml).
  destruct (test_entry_cases t Ht)
    as [(Hnone & _)|(err' & s & text & Hst' & Htext & _ & Hs & Hentry)]; [congruence|].
  assert (err' = err) as -> by congruence.
  exists p0, s, text. rewrite <- Hentry. done.
Qed.

(** C4, on the input that breaks it: scenario B up to its failing
    test, which raises ValueError("bad input") and is reported by the
    framework with the exception instance.  The trace is built as a
    string plus [err[1]], the exception instance: [stopTest] raises
    [TypeError] before it overwrites responseMessage and before it
    forwards anything.  The failing test leaves its responseMessage at
    the initial 0, no diagnostic entry and no row: the log holds the
    row of the first test only. *)
Theorem C4_failing_input :
  let tests := take 2 scenario_B in
  snd (run "out.csv" "err.xml" tests) = Raise TypeError ∧
  test_count (fst (run "out.csv" "err.xml" tests)) = 2 ∧
  entries (xml_writes (fst (run "out.csv" "err.xml" tests))) = [] ∧
  (λ row, row !! 3%nat) <$> csv_rows (fst (run "out.csv" "err.xml" tests)) =
    [Some "responseCode"; Some "200"] ∧
  (jtl_dict (fst (run "out.csv" "err.xml" tests)) ≫= (λ d, d !! "responseMessage")) =
    Some (PInt 0) ∧
  (jtl_dict (fst (run "out.csv" "err.xml" tests)) ≫= (λ d, d !! "responseCode")) =
    Some (PStr "404").
Proof. vm_compute. done. Qed.

(** When a [formatError] plugin has put a string in the place of the
    exception instance, scenario B gives three rows with codes 200, 404
    and 300 and one entry, with response-message ValueError; between
    the stack text and the message of its body stands a newline. *)
Example scenario_B_text_outputs :
  snd (run "out.csv" "err.xml" scenario_B_text) = Ok () ∧
  (λ row, row !! 3%nat) <$> csv_rows (fst (run "out.csv" "err.xml" scenario_B_text)) =
    [Some "responseCode"; Some "200"; Some "404"; Some "300"] ∧
  (λ el, (attrib_of el !! "rm", text_of <$> children_of el !! 2%nat)) <$>
    entries (xml_writes (fst (run "out.csv" "err.xml" scenario_B_text))) =
    [(Some "ValueError",
      Some (Some ("  File calc.py, line 3, in test_div" +:+ nl +:+ nl +:+ "bad input")))].
Proof. vm_compute. done. Qed.

(** C9, on the input that breaks it: a failure, reported by the
    framework with the exception instance, followed by a skip.  The skip
    leaves the exception stashed and sets the code to 300, but
    [stopTest] raises [TypeError] where it builds the trace: no entry is
    emitted, no row is written and responseMessage is not
    overwritten. *)
Theorem C9_failing_input :
  let t := TestCase "test_div (pkg.module.CalcTest)" 1010
             [SigFailure value_error; SigSkip] 7 in
  snd (run "out.csv" "err.xml" [t]) = Raise TypeError ∧
  last_err (fst (run "out.csv" "err.xml" [t])) = Some value_error ∧
  entries (xml_writes (fst (run "out.csv" "err.xml" [t]))) = [] ∧
  csv_rows (fst (run "out.csv" "err.xml" [t])) = [JTL_HEADER] ∧
  (jtl_dict (fst (run "out.csv" "err.xml" [t])) ≫= (λ d, d !! "responseCode")) =
    Some (PStr "300") ∧
  (jtl_dict (fst (run "out.csv" "err.xml" [t])) ≫= (λ d, d !! "responseMessage")) =
    Some (PInt 0).
Proof. vm_compute. done. Qed.

(** ** Identity parsing *)

Lemma thread_name_has_dot (test : string) : has_char "." (thread_name test) = true.
Proof. unfold thread_name. apply (has_char_app "." (file_part test) (class_part test)). Qed.
Lemma thread_name_nonempty (test : string) : thread_name test ≠ "".
Proof.
  intros H. pose proof (thread_name_has_dot test) as Hdot. by rewrite H in Hdot.
Qed.
(** C6: at test start the identity "test_add (pkg.module.CalcTest)"
    gives the method name (label) "test_add" and the thread-group name
    "pkg.module.CalcTest", on the plugin and in the record. *)
Theorem C6_scenario_A_identity (p : TaurusNosePlugin) (now_ms : Z) :
  ∃ p' d,
    startTest "test_add (pkg.module.CalcTest)" now_ms p = (p', Ok ()) ∧
    _method_name p' = Some "test_add" ∧
    _module_name p' = Some "pkg.module.CalcTest" ∧
    jtl_dict p' = Some d ∧
    d !! "label" = Some (PStr "test_add") ∧
    d !! "threadName" = Some (PStr "pkg.module.CalcTest").
Proof.
  rewrite startTest_eq. eexists _, _. split; [reflexivity|].
  destruct (start_dict_lookup "test_add (pkg.module.CalcTest)" now_ms)
    as (_ & _ & Hlb & _ & _ & Htn & _).
  destruct p; simpl. split_and!; [done|done|reflexivity|..].
  - rewrite Hlb. f_equal.
  - rewrite Htn. f_equal.
Qed.
(** C8, as the code has it: for an identity string of the conventional
    shape, a non-empty method name without space or newline followed by
    a space, the label of the appended record is that method name, which
    is not empty. *)
Theorem C8_label_conventional (output_file err_file : string) (before : list test_case)
    (t : test_case) (m rest : string) (p : TaurusNosePlugin) :
  identity t = m +:+ String " " rest →
  m ≠ "" →
  all_chars (λ c, negb (is_space c) && negb (is_newline c)) m = true →
  run output_file err_file (before ++ [t]) = (p, Ok ()) →
  ∃ p0 row,
    run output_file err_file before = (p0, Ok ()) ∧
    csv_rows p = csv_rows p0 ++ [row] ∧
    row !! 2%nat = Some m ∧
    row !! 2%nat ≠ Some "".
Proof.
  intros Hid Hm Hchars Hrun.
  destruct (run_snoc_inv _ _ _ _ _ Hrun) as (p0 & Hrun0 & _ & Hrows & _).
  exists p0, (sample_row t).
  assert (sample_row t !! 2%nat = Some m) as Hlabel.
  { rewrite sample_row_eq. simpl. by rewrite Hid, method_part_conventional. }
  split_and!; try done. rewrite Hlabel. congruence.
Qed.

Lemma C8_witness :
  let t := TestCase "test_add (pkg.module.CalcTest)" 1000 [SigSuccess] 5 in
  identity t = "test_add" +:+ String " " "(pkg.module.CalcTest)" ∧
  "test_add" ≠ "" ∧
  all_chars (λ c, negb (is_space c) && negb (is_newline c)) "test_add" = true ∧
  run "out.csv" "err.xml" ([] ++ [t]) = (fst (run "out.csv" "err.xml" ([] ++ [t])), Ok ()) ∧
  ∃ p0 row,
    run "out.csv" "err.xml" [] = (p0, Ok ()) ∧
    csv_rows (fst (run "out.csv" "err.xml" ([] ++ [t]))) = csv_rows p0 ++ [row] ∧
    row !! 2%nat = Some "test_add".
Proof.
  intros t.
  assert (run "out.csv" "err.xml" ([] ++ [t]) =
            (fst (run "out.csv" "err.xml" ([] ++ [t])), Ok ())) as Hrun
    by (apply run_returns; vm_compute; reflexivity).
  split; [reflexivity|]. split; [discriminate|]. split; [reflexivity|].
  split; [exact Hrun|].
  destruct (C8_label_conventional "out.csv" "err.xml" [] t "test_add" "(pkg.module.CalcTest)"
              _ eq_refl ltac:(discriminate) eq_refl Hrun)
    as (p0 & row & Hrun0 & Hrows & Hlabel & _).
  exists p0, row. split; [exact Hrun0|]. split; [exact Hrows|exact Hlabel].
Defined.

(** An identity string without a space: the method pattern does not
    match and the label of the appended record is the empty string. *)
Lemma C8_counterexample :
  let t := TestCase "test_add" 1000 [SigSuccess] 5 in
  snd (run "out.csv" "err.xml" [t]) = Ok () ∧
  csv_rows (fst (run "out.csv" "err.xml" [t])) =
    [JTL_HEADER; ["1000"; "5"; ""; "200"; "OK"; "."; "true"; "1"; "1"; "0"; "0"]].
Proof. vm_compute. done. Qed.

(** C10: the thread-group name a test writes, to its row and to its
    diagnostic entry when there is one, is the file part, a dot, then
    the class part; it contains a dot and is not empty, and it is "."
    when neither the file pattern nor the class pattern matches. *)
Theorem C10_thread_name (output_file err_file : string) (before : list test_case)
    (t : test_case) (p : TaurusNosePlugin) :
  run output_file err_file (before ++ [t]) = (p, Ok ()) →
  ∃ p0 row new,
    run output_file err_file before = (p0, Ok ()) ∧
    csv_rows p = csv_rows p0 ++ [row] ∧
    xml_writes p = xml_writes p0 ++ new ∧
    row !! 5%nat = Some (thread_name (identity t)) ∧
    Forall (λ w, ∃ el, w = WElement el ∧
                       attrib_of el !! "tn" = Some (thread_name (identity t))) new ∧
    thread_name (identity t) =
      first_or_empty (SEARCH_PATTERNS "file") (identity t) +:+ "." +:+
      first_or_empty (SEARCH_PATTERNS "class") (identity t) ∧
    has_char "." (thread_name (identity t)) = true ∧
    thread_name (identity t) ≠ "" ∧
    (Re.findall_head (SEARCH_PATTERNS "file") (identity t) = None →
     Re.findall_head (SEARCH_PATTERNS "class") (identity t) = None →
     thread_name (identity t) = ".").
Proof.
  intros Hrun.
  destruct (run_snoc_inv _ _ _ _ _ Hrun) as (p0 & Hrun0 & Ht & Hrows & Hxml).
  exists p0, (sample_row t), (test_entry t). split_and!; try done.
  - by rewrite sample_row_eq.
  - destruct (test_entry_cases t Ht)
      as [(_ & _ & ->)|(err & s & text & _ & _ & _ & _ & ->)].
    + constructor.
    + repeat constructor. eexists. split; [reflexivity|]. apply http_sample_attrib.
  - apply thread_name_has_dot.
  - apply thread_name_nonempty.
  - intros Hfile Hclass. unfold thread_name, file_part, class_part, first_or_empty.
    by rewrite Hfile, Hclass.
Qed.

Lemma C10_witness :
  let t := TestCase "test_add" 1000 [SigFailure value_error_text] 5 in
  run "out.csv" "err.xml" ([] ++ [t]) = (fst (run "out.csv" "err.xml" ([] ++ [t])), Ok ()) ∧
  Re.findall_head (SEARCH_PATTERNS "file") (identity t) = None ∧
  Re.findall_head (SEARCH_PATTERNS "class") (identity t) = None ∧
  ∃ p0 row new,
    run "out.csv" "err.xml" [] = (p0, Ok ()) ∧
    csv_rows (fst (run "out.csv" "err.xml" ([] ++ [t]))) = csv_rows p0 ++ [row] ∧
    xml_writes (fst (run "out.csv" "err.xml" ([] ++ [t]))) = xml_writes p0 ++ new ∧
    row !! 5%nat = Some (thread_name (identity t)) ∧
    thread_name (identity t) = ".".
Proof.
  intros t.
  assert (run "out.csv" "err.xml" ([] ++ [t]) =
            (fst (run "out.csv" "err.xml" ([] ++ [t])), Ok ())) as Hrun
    by (apply run_returns; vm_compute; reflexivity).
  split; [exact Hrun|]. split; [reflexivity|]. split; [reflexivity|].
  destruct (C10_thread_name "out.csv" "err.xml" [] t _ Hrun)
    as (p0 & row & new & Hrun0 & Hrows & Hxml & Hrow & _ & _ & _ & _ & Hdot).
  exists p0, row, new. split; [exact Hrun0|]. split; [exact Hrows|].
  split; [exact Hxml|]. split; [exact Hrow|]. exact (Hdot eq_refl eq_refl).
Defined.

(** ** Well-formedness of the diagnostic document *)

Lemma element_ind_nested (P : element → Prop) :
  (∀ t a x c, Forall P c → P (Element t a x c)) → ∀ e, P e.
Proof.
  intros H. fix IH 1. intros [t a x c]. apply H.
  induction c as [|e c IHc]; constructor; [apply IH | exact IHc].
Qed.
(** The tokens of an element open and close only what they opened. *)
(** The tokens of an element open and close only what they opened. *)
Lemma balanced_element (e : element) :
  ∀ stack rest, stack ≠ [] →
    balanced stack (element_tokens e ++ rest) = balanced stack rest.
Proof.
  induction e as [t a x c IH] using element_ind_nested. intros stack rest Hstack.
  assert (∀ rest',
    balanced (t :: stack)
      ((fix go (l : list element) : list token :=
          match l with
          | [] => []
          | e' :: l' => element_tokens e' ++ go l'
          end) c ++ rest') = balanced (t :: stack) rest') as Hchildren.
  { induction IH as [|e c He _ IHc]; intros rest'; [done|].
    rewrite <- app_assoc, He by done. apply IHc. }
  simpl. rewrite <- !app_assoc.
  assert (balanced (t :: stack) (TClose t :: rest) = balanced stack rest) as Hclose.
  { destruct stack as [|top stack]; [done|]. simpl. by rewrite String.eqb_refl. }
  destruct x as [s|]; simpl; by rewrite Hchildren.
Qed.
Lemma balanced_elements (els : list element) (root : string) (rest : list token) :
  balanced [root] (concat (element_tokens <$> els) ++ rest) = balanced [root] rest.
Proof.
  induction els as [|e els IH]; [done|].
  rewrite fmap_cons. change (concat (?x :: ?l)) with (x ++ concat l).
  rewrite <- app_assoc, balanced_element by done. exact IH.
Qed.
Lemma document_app (ws1 ws2 : list xml_write) :
  document (ws1 ++ ws2) = document ws1 ++ document ws2.
Proof. unfold document. by rewrite fmap_app, concat_app. Qed.
Lemma document_elements (els : list element) :
  document (WElement <$> els) = concat (element_tokens <$> els).
Proof. unfold document. by rewrite <- list_fmap_compose. Qed.
Lemma entries_elements (els : list element) : entries (WElement <$> els) = els.
Proof.
  induction els as [|el els IH]; [done|].
  rewrite fmap_cons. change (entries (WElement el :: ?l)) with (el :: entries l).
  by rewrite IH.
Qed.
(** A declaration, the root start tag, any elements, the root end tag:
    a well-formed document. *)
Lemma well_formed_document (root : string) (attrs : gmap string string)
    (els : list element) :
  well_formed
    (document (WDeclaration :: WStartTag root attrs :: (WElement <$> els) ++ [WEndTag root]))
  = true.
Proof.
  change (document (WDeclaration :: WStartTag root attrs :: ?l))
    with (TDecl :: TOpen root attrs :: document l).
  rewrite document_app, document_elements. simpl.
  rewrite balanced_elements. simpl. by rewrite String.eqb_refl.
Qed.
(** Once the generator has finished, no call writes anything. *)
Lemma apply_calls_finished (w : JTLErrorWriter.t) (cs : list writer_call) :
  JTLErrorWriter.xml_writer w = Finished → apply_calls w cs = w.
Proof.
  intros Hw. induction cs as [|c cs IH]; [done|].
  assert (apply_call w c = w) as Hc.
  { destruct c as [sample url resp_data|]; simpl.
    - unfold JTLErrorWriter.add_sample.
      destruct (JTLErrorWriter.gen_httpSample _ _ _); [|done].
      unfold JTLErrorWriter.send. by rewrite Hw.
    - unfold JTLErrorWriter.close. by rewrite Hw. }
  unfold apply_calls. simpl. rewrite Hc. exact IH.
Qed.
Lemma close_apply_calls (cs : list writer_call) (ws : list xml_write) :
  JTLErrorWriter.close (apply_calls (JTLErrorWriter.Make Suspended (File ws false)) cs) =
  (JTLErrorWriter.Make Finished
     (File (ws ++ (WElement <$> added_entries cs) ++ [WEndTag "testResults"]) false),
   Ok ()).
Proof.
  revert ws. induction cs as [|c cs IH]; intros ws; [done|].
  unfold apply_calls. simpl foldl. fold (apply_calls).
  destruct c as [sample url resp_data|]; simpl.
  - unfold JTLErrorWriter.add_sample.
    destruct (JTLErrorWriter.gen_httpSample sample url resp_data) as [el|]; simpl.
    + fold (apply_calls (JTLErrorWriter.Make Suspended (File (ws ++ [WElement el]) false)) cs).
      rewrite IH. by rewrite <- app_assoc.
    + fold (apply_calls (JTLErrorWriter.Make Suspended (File ws false)) cs). apply IH.
  - fold (apply_calls
            (JTLErrorWriter.Make Finished (File (ws ++ [WEndTag "testResults"]) false)) cs).
    by rewrite apply_calls_finished.
Qed.
(** C5: open the error writer on a new file, make any calls on it
    (adding entries, closing), and close it: the generator has finished
    and the file holds the XML declaration, the start tag of the root
    testResults with version 1.2, the entries added and the end tag of
    the root, a well-formed document, for any number of entries. *)
Theorem C5_document_well_formed (cs : list writer_call) :
  ∃ w0 w,
    JTLErrorWriter.__init__ fopen = Ok w0 ∧
    JTLErrorWriter.close (apply_calls w0 cs) = (w, Ok ()) ∧
    JTLErrorWriter.xml_writer w = Finished ∧
    written (JTLErrorWriter.out_file_fds w) =
      WDeclaration :: WStartTag "testResults" {[ "version" := "1.2" ]} ::
      (WElement <$> added_entries cs) ++ [WEndTag "testResults"] ∧
    entries (written (JTLErrorWriter.out_file_fds w)) = added_entries cs ∧
    well_formed (document (written (JTLErrorWriter.out_file_fds w))) = true.
Proof.
  eexists _, _. split; [reflexivity|]. split; [apply close_apply_calls|].
  simpl. split_and!; try done.
  - change (entries (WDeclaration :: WStartTag "testResults" testResults_attrs :: ?l))
      with (entries l).
    rewrite entries_app, entries_elements. apply app_nil_r.
  - apply (well_formed_document "testResults" testResults_attrs).
Qed.
(** No entry at all: the document is the declaration and an empty root. *)
Example empty_document :
  ∃ w, JTLErrorWriter.close (apply_calls (JTLErrorWriter.Make Suspended
         (File [WDeclaration; WStartTag "testResults" testResults_attrs] false)) []) = (w, Ok ()) ∧
       document (written (JTLErrorWriter.out_file_fds w)) =
         [TDecl; TOpen "testResults" {[ "version" := "1.2" ]}; TClose "testResults"].
Proof. eexists. split; reflexivity. Qed.
(** Left open, the root makes the document ill-formed: the end tag that
    [close] writes is what completes it. *)
Example unclosed_document_ill_formed :
  well_formed (document [WDeclaration; WStartTag "testResults" testResults_attrs]) = false.
Proof. reflexivity. Qed.
(** ** The end of the run *)

(** C7: on a plugin that [begin] has set up, [finalize] raises the
    empty-run error exactly when the tests-run counter is zero and
    returns normally otherwise; in both cases the plugin it leaves has
    the error writer closed with the root end tag written and both
    streams closed, that is, all three happen before the error is
    raised. *)
Theorem C7_finalize (p : TaurusNosePlugin) :
  ready p →
  ∃ p' r fo fe,
    finalize p = (p', r) ∧
    (r = Raise (RuntimeError "Nothing to test.") ↔ test_count p = 0) ∧
    (r = Ok () ↔ test_count p ≠ 0) ∧
    error_writer p' = Some Finished ∧
    xml_writes p' = xml_writes p ++ [WEndTag "testResults"] ∧
    csv_rows p' = csv_rows p ∧
    out_stream p' = Some fo ∧ closed fo = true ∧
    err_stream p' = Some fe ∧ closed fe = true.
Proof.
  intros (Hew & Hcw & (fo & Hfo & Hfoc) & (fe & Hfe & Hfec)).
  destruct p as [mo me outf errf tc sc cw jd ew le tm os es so].
  destruct fo as [wo co], fe as [we ce]. simpl in *. subst.
  unfold finalize, xml_writes, csv_rows. unfold_monad. unfold_io. unfold_monad.
  destruct (decide (tc = 0)) as [Htc|Htc]; unfold_monad;
    eexists _, _, _, _; (split; [reflexivity|]); simpl;
    split_and!; try done.
Qed.
Lemma C7_witness :
  ready (fst (run "out.csv" "err.xml" [])) ∧
  ∃ p' r,
    finalize (fst (run "out.csv" "err.xml" [])) = (p', r) ∧
    (r = Raise (RuntimeError "Nothing to test.") ↔
     test_count (fst (run "out.csv" "err.xml" [])) = 0) ∧
    error_writer p' = Some Finished.
Proof.
  assert (ready (fst (run "out.csv" "err.xml" []))) as Hready.
  { unfold ready. split; [reflexivity|]. split; [reflexivity|].
    split; eexists; split; reflexivity. }
  split; [exact Hready|].
  destruct (C7_finalize _ Hready)
    as (p' & r & fo & fe & Hfin & Hraise & _ & Hew & _).
  exists p', r. split; [exact Hfin|]. split; [exact Hraise|exact Hew].
Defined.

(** * Further properties of the plugin *)

(** ** Callbacks out of order *)

(** X1: an outcome callback that arrives before any [startTest] finds
    [jtl_dict] still [None]: it raises [TypeError] and changes nothing,
    in particular [addSuccess] does not count a success. *)
Theorem X1_outcome_before_start (s : signal) (p : TaurusNosePlugin) :
  jtl_dict p = None →
  deliver s p = (p, Raise TypeError).
Proof.
  destruct p as [mo me outf errf tc sc cw jd ew le tm os es so]. simpl. intros ->.
  destruct s; reflexivity.
Qed.
Lemma X1_witness :
  jtl_dict (__init__ "out.csv" "err.xml") = None ∧
  deliver SigSuccess (__init__ "out.csv" "err.xml") =
    (__init__ "out.csv" "err.xml", Raise TypeError).
Proof.
  split; [reflexivity|].
  exact (X1_outcome_before_start SigSuccess (__init__ "out.csv" "err.xml") eq_refl).
Defined.
(** X2: [stopTest] without a [startTest] before it finds no [_time]:
    it raises [AttributeError] where it reads the attribute, before it
    touches the dict, but only after it has counted the test; no row,
    no entry and no report line is written. *)
Theorem X2_stop_without_start (elapsed_ms : Z) (p : TaurusNosePlugin) :
  _time p = None →
  ∃ p',
    stopTest elapsed_ms p = (p', Raise AttributeError) ∧
    test_count p' = test_count p + 1 ∧
    jtl_dict p' = jtl_dict p ∧
    csv_rows p' = csv_rows p ∧
    xml_writes p' = xml_writes p ∧
    stdout p' = stdout p.
Proof.
  destruct p as [mo me outf errf tc sc cw jd ew le tm os es so]. simpl. intros ->.
  eexists. split; [reflexivity|]. done.
Qed.

Lemma X2_witness :
  _time (fst (run "out.csv" "err.xml" [])) = None ∧
  ∃ p',
    stopTest 5 (fst (run "out.csv" "err.xml" [])) = (p', Raise AttributeError) ∧
    test_count p' = 1 ∧
    csv_rows p' = [JTL_HEADER].
Proof.
  split; [reflexivity|].
  destruct (X2_stop_without_start 5 (fst (run "out.csv" "err.xml" [])) eq_refl)
    as (p' & Hstop & Htc & _ & Hrows & _).
  exists p'. split; [exact Hstop|]. split; [exact Htc|exact Hrows].
Defined.

(** X3: [finalize] on a plugin whose [begin] never ran has no error
    writer to close: it raises [AttributeError], not the empty-run
    error, whatever the counter, and changes nothing. *)
Theorem X3_finalize_before_begin (p : TaurusNosePlugin) :
  error_writer p = None →
  finalize p = (p, Raise AttributeError).
Proof.
  destruct p as [mo me outf errf tc sc cw jd ew le tm os es so]. simpl. intros ->.
  reflexivity.
Qed.
Lemma X3_witness :
  error_writer (__init__ "out.csv" "err.xml") = None ∧
  test_count (__init__ "out.csv" "err.xml") = 0 ∧
  finalize (__init__ "out.csv" "err.xml") =
    (__init__ "out.csv" "err.xml", Raise AttributeError).
Proof.
  split; [reflexivity|]. split; [reflexivity|].
  exact (X3_finalize_before_begin (__init__ "out.csv" "err.xml") eq_refl).
Defined.
(** ** Counters and the report on standard output *)

Lemma report_lines_length (tests_run passed : Z) (ts : list test_case) :
  length (report_lines tests_run passed ts) = length ts.
Proof.
  revert tests_run passed. induction ts as [|t ts IH]; intros a b; [done|].
  simpl. by rewrite IH.
Qed.
(** X4: after a run in which every callback returned, the tests-run
    counter is the number of tests and the success counter the number
    of success signals received; each test wrote one line to standard
    output, "module.method,Total:n Pass:s Failed:n-s", with the
    thread-group name, the label and the two counters as they stood
    when that test stopped. *)
Theorem X4_counters_and_report (output_file err_file : string) (tests : list test_case)
    (p : TaurusNosePlugin) :
  run output_file err_file tests = (p, Ok ()) →
  test_count p = Z.of_nat (length tests) ∧
  success p = total_successes tests ∧
  stdout p = report_lines 0 0 tests ∧
  length (stdout p) = length tests.
Proof.
  intros Hrun.
  destruct (run_facts _ _ _ _ Hrun) as (_ & _ & _ & _ & Htc & Hsc & Hout).
  split_and!; try done. rewrite Hout. apply report_lines_length.
Qed.

Lemma X4_witness :
  run "out.csv" "err.xml" scenario_B_text =
    (fst (run "out.csv" "err.xml" scenario_B_text), Ok ()) ∧
  test_count (fst (run "out.csv" "err.xml" scenario_B_text)) = 3 ∧
  success (fst (run "out.csv" "err.xml" scenario_B_text)) = 1.
Proof.
  assert (run "out.csv" "err.xml" scenario_B_text =
            (fst (run "out.csv" "err.xml" scenario_B_text), Ok ())) as Hrun
    by (apply run_returns; vm_compute; reflexivity).
  split; [exact Hrun|].
  destruct (X4_counters_and_report _ _ _ _ Hrun) as (Htc & Hsc & _).
  split; [exact Htc|exact Hsc].
Defined.

Lemma successes_nonneg (ss : list signal) : 0 ≤ successes ss.
Proof. unfold successes. lia. Qed.
Lemma total_successes_bounds (ts : list test_case) :
  Forall (λ t, successes (signals t) ≤ 1) ts →
  0 ≤ total_successes ts ≤ Z.of_nat (length ts).
Proof.
  induction 1 as [|t ts Ht _ IH]; simpl; [lia|].
  pose proof (successes_nonneg (signals t)). lia.
Qed.
(** X5: when no test receives more than one success signal, after a run
    in which every callback returned the success counter does not
    exceed the tests-run counter, so the "Failed" number of the report
    is not negative. *)
Theorem X5_passed_at_most_run (output_file err_file : string) (tests : list test_case)
    (p : TaurusNosePlugin) :
  Forall (λ t, successes (signals t) ≤ 1) tests →
  run output_file err_file tests = (p, Ok ()) →
  0 ≤ success p ≤ test_count p ∧
  0 ≤ test_count p - success p.
Proof.
  intros Hone Hrun.
  destruct (run_facts _ _ _ _ Hrun) as (_ & _ & _ & _ & Htc & Hsc & _).
  pose proof (total_successes_bounds tests Hone). lia.
Qed.

Lemma X5_witness :
  Forall (λ t, successes (signals t) ≤ 1) scenario_B_text ∧
  run "out.csv" "err.xml" scenario_B_text =
    (fst (run "out.csv" "err.xml" scenario_B_text), Ok ()) ∧
  0 ≤ success (fst (run "out.csv" "err.xml" scenario_B_text))
    ≤ test_count (fst (run "out.csv" "err.xml" scenario_B_text)).
Proof.
  assert (Forall (λ t, successes (signals t) ≤ 1) scenario_B_text) as Hone.
  { repeat constructor; vm_compute; discriminate. }
  assert (run "out.csv" "err.xml" scenario_B_text =
            (fst (run "out.csv" "err.xml" scenario_B_text), Ok ())) as Hrun
    by (apply run_returns; vm_compute; reflexivity).
  split; [exact Hone|]. split; [exact Hrun|].
  exact (proj1 (X5_passed_at_most_run _ _ _ _ Hone Hrun)).
Defined.

(** ** More on the rows *)

(** X6: every data row of a run in which every callback returned has as
    many cells as the header; its grpThreads and allThreads cells are 1
    and its Latency and Connect cells 0. *)
Theorem X6_row_shape (output_file err_file : string) (tests : list test_case)
    (p : TaurusNosePlugin) :
  run output_file err_file tests = (p, Ok ()) →
  Forall (λ row, length row = length JTL_HEADER ∧
                 row !! 7%nat = Some "1" ∧ row !! 8%nat = Some "1" ∧
                 row !! 9%nat = Some "0" ∧ row !! 10%nat = Some "0")
         (drop 1 (csv_rows p)).
Proof.
  intros Hrun. destruct (run_facts _ _ _ _ Hrun) as (_ & _ & Hrows & _).
  rewrite Hrows. simpl. rewrite drop_0.
  apply Forall_fmap, Forall_forall. intros t _. unfold compose. cbv beta.
  by rewrite sample_row_eq.
Qed.

Lemma X6_witness :
  run "out.csv" "err.xml" scenario_B_text =
    (fst (run "out.csv" "err.xml" scenario_B_text), Ok ()) ∧
  Forall (λ row, length row = length JTL_HEADER)
         (drop 1 (csv_rows (fst (run "out.csv" "err.xml" scenario_B_text)))).
Proof.
  assert (run "out.csv" "err.xml" scenario_B_text =
            (fst (run "out.csv" "err.xml" scenario_B_text), Ok ())) as Hrun
    by (apply run_returns; vm_compute; reflexivity).
  split; [exact Hrun|].
  eapply Forall_impl; [exact (X6_row_shape _ _ _ _ Hrun)|].
  intros row Hrow. exact (proj1 Hrow).
Defined.

(** The [stopTest] of a test without error or failure signal returns. *)
Lemma test_result_no_err (t : test_case) :
  got_err_signal t = false → test_result t = Ok ().
Proof.
  intros Hno. apply stashed_None in Hno. unfold test_result. by rewrite Hno.
Qed.

Lemma run_snoc_ok (output_file err_file : string) (before : list test_case)
    (t : test_case) (p0 : TaurusNosePlugin) :
  run output_file err_file before = (p0, Ok ()) →
  test_result t = Ok () →
  ∃ p,
    run output_file err_file (before ++ [t]) = (p, Ok ()) ∧
    csv_rows p = csv_rows p0 ++ [sample_row t] ∧
    xml_writes p = xml_writes p0 ++ test_entry t.
Proof.
  intros Hrun0 Ht.
  destruct (run_snoc_outcome _ _ _ t _ Hrun0) as (p & Hrun & _ & Hout).
  rewrite Ht in Hrun, Hout. by exists p.
Qed.

(** X7: [startTest] clears the stashed exception, so a test that
    receives no error or failure signal returns from [stopTest] and
    adds nothing to the diagnostic document, whatever the tests before
    it did. *)
Theorem X7_no_signal_no_entry (output_file err_file : string) (before : list test_case)
    (t : test_case) (p0 : TaurusNosePlugin) :
  got_err_signal t = false →
  run output_file err_file before = (p0, Ok ()) →
  ∃ p,
    run output_file err_file (before ++ [t]) = (p, Ok ()) ∧
    xml_writes p = xml_writes p0.
Proof.
  intros Hno Hrun0.
  destruct (run_snoc_ok _ _ _ t _ Hrun0 (test_result_no_err t Hno)) as (p & Hrun & _ & Hxml).
  exists p. split; [done|].
  destruct (test_entry_cases t (test_result_no_err t Hno))
    as [(_ & _ & Hnone)|(err & s & text & _ & _ & Hgot & _)]; [|congruence].
  by rewrite Hxml, Hnone, app_nil_r.
Qed.

Lemma X7_witness :
  let t_div := TestCase "test_div (pkg.module.CalcTest)" 1010
                 [SigFailure value_error_text] 7 in
  let t_mul := TestCase "test_mul (pkg.module.CalcTest)" 1020 [SigSkip] 0 in
  got_err_signal t_mul = false ∧
  run "out.csv" "err.xml" [t_div] = (fst (run "out.csv" "err.xml" [t_div]), Ok ()) ∧
  ∃ p,
    run "out.csv" "err.xml" ([t_div] ++ [t_mul]) = (p, Ok ()) ∧
    xml_writes p = xml_writes (fst (run "out.csv" "err.xml" [t_div])).
Proof.
  intros t_div t_mul.
  assert (run "out.csv" "err.xml" [t_div] = (fst (run "out.csv" "err.xml" [t_div]), Ok ()))
    as Hrun0 by (apply run_returns; vm_compute; reflexivity).
  split; [reflexivity|]. split; [exact Hrun0|].
  exact (X7_no_signal_no_entry "out.csv" "err.xml" [t_div] t_mul _ eq_refl Hrun0).
Defined.

(** X8: without an error or failure signal the responseMessage cell is
    "OK" when a success signal arrived and the initial 0 otherwise, so a
    test that was only skipped has responseMessage 0. *)
Theorem X8_message_without_exception (output_file err_file : string)
    (before : list test_case) (t : test_case) (p0 : TaurusNosePlugin) :
  got_err_signal t = false →
  run output_file err_file before = (p0, Ok ()) →
  ∃ p row,
    run output_file err_file (before ++ [t]) = (p, Ok ()) ∧
    csv_rows p = csv_rows p0 ++ [row] ∧
    row !! 4%nat = Some (if existsb is_success (signals t) then "OK" else "0").
Proof.
  intros Hno Hrun0.
  destruct (run_snoc_ok _ _ _ t _ Hrun0 (test_result_no_err t Hno)) as (p & Hrun & Hrows & _).
  exists p, (sample_row t). split_and!; try done.
  rewrite sample_row_eq. simpl. unfold message_text.
  apply stashed_None in Hno. by rewrite Hno.
Qed.

Lemma X8_witness :
  let t_mul := TestCase "test_mul (pkg.module.CalcTest)" 1020 [SigSkip] 0 in
  got_err_signal t_mul = false ∧
  run "out.csv" "err.xml" [] = (fst (run "out.csv" "err.xml" []), Ok ()) ∧
  ∃ p row,
    run "out.csv" "err.xml" ([] ++ [t_mul]) = (p, Ok ()) ∧
    csv_rows p = csv_rows (fst (run "out.csv" "err.xml" [])) ++ [row] ∧
    row !! 4%nat = Some "0".
Proof.
  intros t_mul.
  assert (run "out.csv" "err.xml" [] = (fst (run "out.csv" "err.xml" []), Ok ()))
    as Hrun0 by (apply run_returns; vm_compute; reflexivity).
  split; [reflexivity|]. split; [exact Hrun0|].
  exact (X8_message_without_exception "out.csv" "err.xml" [] t_mul _ eq_refl Hrun0).
Defined.

(** ** More on the diagnostic entry and its document *)

Lemma http_sample_structure (t lt ct ts s lb rc rm tn trace : string) :
  let el := http_sample t lt ct ts s lb rc rm tn trace in
  dom (attrib_of el) = list_to_set JTL_ERR_ATRS ∧
  tag_of <$> children_of el = http_sample_children ∧
  (λ c, attrib_of c !! "class") <$> children_of el =
    [Some "java.lang.String"; Some "java.lang.String"; Some "java.lang.String";
     Some "java.lang.String"; Some "java.lang.String"; Some "java.lang.String"; None] ∧
  text_of <$> children_of el = [None; None; Some trace; None; None; None; Some lb] ∧
  attrib_of el !! "dt" = Some "text" ∧
  attrib_of el !! "de" = Some "" ∧
  attrib_of el !! "by" = Some (pretty (py_len trace)) ∧
  attrib_of el !! "ng" = Some "1" ∧
  attrib_of el !! "na" = Some "1".
Proof.
  simpl. unfold http_attrs. split_and!; try done; by simplify_map_eq.
Qed.

(** X9: the diagnostic entry of a test that stopped with a stashed
    exception and whose [stopTest] returned is an httpSample with
    exactly the fourteen attributes of JTL_ERR_ATRS and seven children
    in the fixed order; the first six children carry
    class="java.lang.String", the response data holds the trace (stack
    text, a newline, the message), the URL child holds the label, and
    the attribute "by" is the number of characters of the trace. *)
Theorem X9_entry_structure (output_file err_file : string) (before : list test_case)
    (t : test_case) (err : exc_info) (p : TaurusNosePlugin) :
  stashed (signals t) None = Some err →
  run output_file err_file (before ++ [t]) = (p, Ok ()) →
  ∃ p0 el text trace,
    run output_file err_file before = (p0, Ok ()) ∧
    exc_value err = ExcText text ∧
    trace = String.concat "" (format_tb err) +:+ nl +:+ text ∧
    xml_writes p = xml_writes p0 ++ [WElement el] ∧
    tag_of el = "httpSample" ∧
    dom (attrib_of el) = list_to_set JTL_ERR_ATRS ∧
    tag_of <$> children_of el = http_sample_children ∧
    (λ c, attrib_of c !! "class") <$> children_of el =
      [Some "java.lang.String"; Some "java.lang.String"; Some "java.lang.String";
       Some "java.lang.String"; Some "java.lang.String"; Some "java.lang.String"; None] ∧
    text_of <$> children_of el =
      [None; None; Some trace; None; None; None; Some (method_part (identity t))] ∧
    attrib_of el !! "dt" = Some "text" ∧
    attrib_of el !! "de" = Some "" ∧
    attrib_of el !! "by" = Some (pretty (py_len trace)) ∧
    attrib_of el !! "ng" = Some "1" ∧
    attrib_of el !! "na" = Some "1".
Proof.
  intros Hst Hrun.
  destruct (run_snoc_stashed _ _ _ _ _ _ Hst Hrun)
    as (p0 & s & text & Hrun0 & Htext & _ & _ & Hxml).
  eexists p0, _, text, _. split; [exact Hrun0|]. split; [exact Htext|].
  split; [reflexivity|]. split; [exact Hxml|].
  split; [reflexivity|]. apply http_sample_structure.
Qed.

Lemma X9_witness :
  let t_div := TestCase "test_div (pkg.module.CalcTest)" 1010
                 [SigFailure value_error_text] 7 in
  stashed (signals t_div) None = Some value_error_text ∧
  run "out.csv" "err.xml" ([] ++ [t_div]) =
    (fst (run "out.csv" "err.xml" ([] ++ [t_div])), Ok ()) ∧
  ∃ p0 el,
    run "out.csv" "err.xml" [] = (p0, Ok ()) ∧
    xml_writes (fst (run "out.csv" "err.xml" ([] ++ [t_div]))) =
      xml_writes p0 ++ [WElement el] ∧
    tag_of <$> children_of el = http_sample_children.
Proof.
  intros t_div.
  assert (run "out.csv" "err.xml" ([] ++ [t_div]) =
            (fst (run "out.csv" "err.xml" ([] ++ [t_div])), Ok ())) as Hrun
    by (apply run_returns; vm_compute; reflexivity).
  split; [reflexivity|]. split; [exact Hrun|].
  destruct (X9_entry_structure "out.csv" "err.xml" [] t_div value_error_text _ eq_refl Hrun)
    as (p0 & el & text & trace & Hrun0 & _ & _ & Hxml & _ & _ & Htags & _).
  exists p0, el. split; [exact Hrun0|]. split; [exact Hxml|exact Htags].
Defined.

(** X10: the diagnostic entry and the row of the same test agree: the
    attributes ts, t, lb, rc, rm, tn, s, lt and ct of the entry are the
    cells timeStamp, elapsed, label, responseCode, responseMessage,
    threadName, success, Latency and Connect of the row. *)
Theorem X10_entry_matches_row (output_file err_file : string) (before : list test_case)
    (t : test_case) (err : exc_info) (p : TaurusNosePlugin) :
  stashed (signals t) None = Some err →
  run output_file err_file (before ++ [t]) = (p, Ok ()) →
  ∃ p0 row el,
    run output_file err_file before = (p0, Ok ()) ∧
    csv_rows p = csv_rows p0 ++ [row] ∧
    xml_writes p = xml_writes p0 ++ [WElement el] ∧
    attrib_of el !! "ts" = row !! 0%nat ∧
    attrib_of el !! "t" = row !! 1%nat ∧
    attrib_of el !! "lb" = row !! 2%nat ∧
    attrib_of el !! "rc" = row !! 3%nat ∧
    attrib_of el !! "rm" = row !! 4%nat ∧
    attrib_of el !! "tn" = row !! 5%nat ∧
    attrib_of el !! "s" = row !! 6%nat ∧
    attrib_of el !! "lt" = row !! 9%nat ∧
    attrib_of el !! "ct" = row !! 10%nat.
Proof.
  intros Hst Hrun.
  destruct (run_snoc_stashed _ _ _ _ _ _ Hst Hrun)
    as (p0 & s & text & Hrun0 & _ & Hs & Hrows & Hxml).
  eexists p0, (sample_row t), _.
  split; [exact Hrun0|]. split; [exact Hrows|]. split; [exact Hxml|].
  rewrite sample_row_eq. unfold code_value, message_text. rewrite Hs, Hst.
  simpl. unfold http_attrs. split_and!; by simplify_map_eq.
Qed.

Lemma X10_witness :
  let t_div := TestCase "test_div (pkg.module.CalcTest)" 1010
                 [SigFailure value_error_text] 7 in
  stashed (signals t_div) None = Some value_error_text ∧
  run "out.csv" "err.xml" ([] ++ [t_div]) =
    (fst (run "out.csv" "err.xml" ([] ++ [t_div])), Ok ()) ∧
  ∃ p0 row el,
    run "out.csv" "err.xml" [] = (p0, Ok ()) ∧
    csv_rows (fst (run "out.csv" "err.xml" ([] ++ [t_div]))) = csv_rows p0 ++ [row] ∧
    xml_writes (fst (run "out.csv" "err.xml" ([] ++ [t_div]))) =
      xml_writes p0 ++ [WElement el] ∧
    attrib_of el !! "rc" = row !! 3%nat.
Proof.
  intros t_div.
  assert (run "out.csv" "err.xml" ([] ++ [t_div]) =
            (fst (run "out.csv" "err.xml" ([] ++ [t_div])), Ok ())) as Hrun
    by (apply run_returns; vm_compute; reflexivity).
  split; [reflexivity|]. split; [exact Hrun|].
  destruct (X10_entry_matches_row "out.csv" "err.xml" [] t_div value_error_text _ eq_refl Hrun)
    as (p0 & row & el & Hrun0 & Hrows & Hxml & _ & _ & _ & Hrc & _).
  exists p0, row, el. split; [exact Hrun0|]. split; [exact Hrows|].
  split; [exact Hxml|exact Hrc].
Defined.

(** X11: once the error writer has been closed it stays closed: an
    [add_sample] whose element can be built raises [StopIteration] and
    writes nothing, and a second [close] returns normally and writes
    nothing, so the root end tag is written once. *)
Theorem X11_writer_after_close (cs : list writer_call) (sample : gmap string pyval)
    (url : pyval) (resp_data : string) (el : element) :
  JTLErrorWriter.gen_httpSample sample url resp_data = Ok el →
  ∃ w0 w,
    JTLErrorWriter.__init__ fopen = Ok w0 ∧
    JTLErrorWriter.close (apply_calls w0 cs) = (w, Ok ()) ∧
    JTLErrorWriter.add_sample w sample url resp_data = (w, Raise StopIteration) ∧
    JTLErrorWriter.close w = (w, Ok ()).
Proof.
  intros Hel. eexists _, _. split; [reflexivity|]. split; [apply close_apply_calls|].
  unfold JTLErrorWriter.add_sample. rewrite Hel. split; reflexivity.
Qed.
Lemma X11_witness :
  let sample : gmap string pyval := {[ "lb" := PStr "test_div" ]} in
  (∃ el, JTLErrorWriter.gen_httpSample sample (PStr "test_div") "trace" = Ok el) ∧
  ∃ w0 w,
    JTLErrorWriter.__init__ fopen = Ok w0 ∧
    JTLErrorWriter.close (apply_calls w0 []) = (w, Ok ()) ∧
    JTLErrorWriter.add_sample w sample (PStr "test_div") "trace" = (w, Raise StopIteration).
Proof.
  intros sample.
  assert (∃ el, JTLErrorWriter.gen_httpSample sample (PStr "test_div") "trace" = Ok el)
    as Hel by (eexists; vm_compute; reflexivity).
  split; [exact Hel|]. destruct Hel as [el Hel].
  destruct (X11_writer_after_close [] sample (PStr "test_div") "trace" el Hel)
    as (w0 & w & Hinit & Hclose & Hadd & _).
  exists w0, w. split; [exact Hinit|]. split; [exact Hclose|exact Hadd].
Defined.
Lemma test_entries_elements (ts : list test_case) :
  Forall (λ t, test_result t = Ok ()) ts →
  ∃ els, concat (test_entry <$> ts) = WElement <$> els.
Proof.
  induction 1 as [|t ts Ht _ [els IH]]; [by exists []|].
  rewrite fmap_cons. change (concat (?x :: ?l)) with (x ++ concat l). rewrite IH.
  destruct (test_entry_cases t Ht) as [(_ & _ & ->)|(err & s & text & _ & _ & _ & _ & ->)].
  - by exists els.
  - by eexists (_ :: els).
Qed.

(** X12: as long as [finalize] has not run the root element is open:
    after a run in which every callback returned, whatever its tests,
    the diagnostic document is not yet well-formed. *)
Theorem X12_open_document_ill_formed (output_file err_file : string)
    (tests : list test_case) (p : TaurusNosePlugin) :
  run output_file err_file tests = (p, Ok ()) →
  well_formed (document (xml_writes p)) = false.
Proof.
  intros Hrun. destruct (run_facts _ _ _ _ Hrun) as (Hts & _ & _ & Hxml & _).
  rewrite Hxml.
  destruct (test_entries_elements tests Hts) as [els ->].
  change (document (WDeclaration :: WStartTag "testResults" testResults_attrs :: ?l))
    with (TDecl :: TOpen "testResults" testResults_attrs :: document l).
  rewrite document_elements. simpl.
  rewrite <- (app_nil_r (concat _)). by rewrite balanced_elements.
Qed.

Lemma X12_witness :
  run "out.csv" "err.xml" scenario_B_text =
    (fst (run "out.csv" "err.xml" scenario_B_text), Ok ()) ∧
  well_formed (document (xml_writes (fst (run "out.csv" "err.xml" scenario_B_text)))) = false.
Proof.
  assert (run "out.csv" "err.xml" scenario_B_text =
            (fst (run "out.csv" "err.xml" scenario_B_text), Ok ())) as Hrun
    by (apply run_returns; vm_compute; reflexivity).
  split; [exact Hrun|]. exact (X12_open_document_ill_formed _ _ _ _ Hrun).
Defined.

(** X13: a second [finalize] closes nothing again and writes nothing:
    it leaves the plugin as the first one left it and ends the same
    way. *)
Theorem X13_finalize_twice (p : TaurusNosePlugin) :
  ready p →
  ∃ p' r,
    finalize p = (p', r) ∧
    finalize p' = (p', r).
Proof.
  intros (Hew & Hcw & (fo & Hfo & Hfoc) & (fe & Hfe & Hfec)).
  destruct p as [mo me outf errf tc sc cw jd ew le tm os es so].
  destruct fo as [wo co], fe as [we ce]. simpl in *. subst.
  unfold finalize. unfold_monad. unfold_io. unfold_monad.
  destruct (decide (tc = 0)) as [Htc|Htc]; unfold_monad;
    eexists _, _; (split; [reflexivity|]);
    unfold_monad; unfold_io; unfold_monad;
    destruct (decide (tc = 0)); try done; reflexivity.
Qed.
Lemma X13_witness :
  ready (fst (run "out.csv" "err.xml" [])) ∧
  ∃ p' r,
    finalize (fst (run "out.csv" "err.xml" [])) = (p', r) ∧
    finalize p' = (p', r).
Proof.
  assert (ready (fst (run "out.csv" "err.xml" []))) as Hready.
  { unfold ready. split; [reflexivity|]. split; [reflexivity|].
    split; eexists; split; reflexivity. }
  split; [exact Hready|]. exact (X13_finalize_twice _ Hready).
Defined.
(** ** More on identity parsing *)

Lemma file_match_here (s : string) :
  Re.match_here (SEARCH_PATTERNS "file") s =
  match s with
  | String c s' =>
      if Ascii.eqb "(" c
      then Re.lazy_star Re.AnyChar (stop_at "." (Re.consumed s')) s'
      else None
  | EmptyString => None
  end.
Proof. by destruct s. Qed.
Lemma class_match_here (s : string) :
  Re.match_here (SEARCH_PATTERNS "class") s =
  match s with
  | String c s' =>
      if Ascii.eqb "." c
      then Re.lazy_star Re.AnyChar (stop_at ")" (Re.consumed s')) s'
      else None
  | EmptyString => None
  end.
Proof. by destruct s. Qed.
(** Where a lazy star followed by [stop] succeeds, it has run over
    characters that are neither [stop] nor a newline. *)
Lemma lazy_star_stop_inv {A} (stop : Ascii.ascii) (F : string → A) (s : string) (x : A) :
  Re.lazy_star Re.AnyChar (stop_at stop F) s = Some x →
  ∃ m rest,
    s = m +:+ String stop rest ∧
    all_chars (λ c, negb (Ascii.eqb c stop) && negb (is_newline c)) m = true ∧
    x = F (String stop rest).
Proof.
  induction s as [|c s IH]; simpl; [done|].
  destruct (Ascii.eqb stop c) eqn:Hc.
  - apply Ascii.eqb_eq in Hc as <-. intros [= <-]. by exists "", s.
  - destruct (negb (Ascii.eqb c Re.newline)) eqn:Hnl; [|done].
    intros (m & rest & -> & Hm & ->)%IH.
    exists (String c m), rest. split; [done|]. split; [|done].
    change (negb (Ascii.eqb c stop) && negb (is_newline c) &&
            all_chars (λ c, negb (Ascii.eqb c stop) && negb (is_newline c)) m = true).
    rewrite Ascii.eqb_sym, Hc, Hm. unfold is_newline. by rewrite Hnl.
Qed.
Lemma search_inv (r : Re.regex) (s : string) (g : string) :
  Re.search r s = Some g → ∃ pre s', s = pre +:+ s' ∧ Re.match_here r s' = Some g.
Proof.
  induction s as [|c s IH]; rewrite search_unfold.
  - destruct (Re.match_here r "") eqn:E; [|done]. intros [= <-]. by exists "", "".
  - destruct (Re.match_here r (String c s)) eqn:E.
    + intros [= <-]. by exists "", (String c s).
    + intros (pre & s' & -> & Hs')%IH. by exists (String c pre), s'.
Qed.
(** X14: whatever the identity string, the parsed parts are free of
    their delimiters: the label contains no space and no newline, the
    file part no dot and no newline, the class part no closing
    parenthesis and no newline. *)
Theorem X14_parts_without_delimiters (test : string) :
  all_chars (λ c, negb (Ascii.eqb c " ") && negb (is_newline c)) (method_part test) = true ∧
  all_chars (λ c, negb (Ascii.eqb c ".") && negb (is_newline c)) (file_part test) = true ∧
  all_chars (λ c, negb (Ascii.eqb c ")") && negb (is_newline c)) (class_part test) = true.
Proof.
  unfold method_part, file_part, class_part, first_or_empty, Re.findall_head.
  split_and!.
  - destruct (Re.search _ test) as [g|] eqn:E; [|done].
    apply search_inv in E as (pre & s' & _ & E). rewrite method_match_here in E.
    apply lazy_star_stop_inv in E as (m & rest & -> & Hm & ->). by rewrite consumed_app.
  - destruct (Re.search _ test) as [g|] eqn:E; [|done].
    apply search_inv in E as (pre & s' & _ & E). rewrite file_match_here in E.
    destruct s' as [|c s']; [done|]. destruct (Ascii.eqb "(" c); [|done].
    apply lazy_star_stop_inv in E as (m & rest & -> & Hm & ->). by rewrite consumed_app.
  - destruct (Re.search _ test) as [g|] eqn:E; [|done].
    apply search_inv in E as (pre & s' & _ & E). rewrite class_match_here in E.
    destruct s' as [|c s']; [done|]. destruct (Ascii.eqb "." c); [|done].
    apply lazy_star_stop_inv in E as (m & rest & -> & Hm & ->). by rewrite consumed_app.
Qed.
Lemma all_chars_impl (P Q : Ascii.ascii → bool) (s : string) :
  (∀ c, P c = true → Q c = true) → all_chars P s = true → all_chars Q s = true.
Proof.
  intros HPQ. induction s as [|c s IH]; simpl; [done|].
  intros [Hc Hs]%andb_prop. by rewrite (HPQ c Hc), IH.
Qed.
(** The leftmost match is not found before the first opening
    character of the pattern. *)
Lemma file_search_skip (pre s : string) :
  all_chars (λ c, negb (Ascii.eqb c "(")) pre = true →
  Re.search (SEARCH_PATTERNS "file") (pre +:+ s) = Re.search (SEARCH_PATTERNS "file") s.
Proof.
  induction pre as [|c pre IH]; [done|]. intros H. simpl in H.
  apply andb_prop in H as [Hc Hpre].
  change (String c pre +:+ s) with (String c (pre +:+ s)).
  rewrite (search_unfold _ (String c (pre +:+ s))), file_match_here.
  apply negb_true_iff in Hc. rewrite Ascii.eqb_sym, Hc. by apply IH.
Qed.
Lemma class_search_skip (pre s : string) :
  all_chars (λ c, negb (Ascii.eqb c ".")) pre = true →
  Re.search (SEARCH_PATTERNS "class") (pre +:+ s) = Re.search (SEARCH_PATTERNS "class") s.
Proof.
  induction pre as [|c pre IH]; [done|]. intros H. simpl in H.
  apply andb_prop in H as [Hc Hpre].
  change (String c pre +:+ s) with (String c (pre +:+ s)).
  rewrite (search_unfold _ (String c (pre +:+ s))), class_match_here.
  apply negb_true_iff in Hc. rewrite Ascii.eqb_sym, Hc. by apply IH.
Qed.
Lemma file_search_here (f rest : string) :
  all_chars (λ c, negb (Ascii.eqb c ".") && negb (is_newline c)) f = true →
  Re.search (SEARCH_PATTERNS "file") (String "(" (f +:+ String "." rest)) = Some f.
Proof.
  intros Hf. rewrite search_unfold, file_match_here. simpl.
  rewrite (lazy_star_until "." (Re.consumed (f +:+ String "." rest)) f rest Hf).
  by rewrite consumed_app.
Qed.
Lemma class_search_here (r rest : string) :
  all_chars (λ c, negb (Ascii.eqb c ")") && negb (is_newline c)) r = true →
  Re.search (SEARCH_PATTERNS "class") (String "." (r +:+ String ")" rest)) = Some r.
Proof.
  intros Hr. rewrite search_unfold, class_match_here. simpl.
  rewrite (lazy_star_until ")" (Re.consumed (r +:+ String ")" rest)) r rest Hr).
  by rewrite consumed_app.
Qed.
(** The three parts of an identity "method (file.class)". *)
Lemma parse_conventional (m f r tail : string) :
  all_chars (λ c, negb (is_space c) && negb (is_newline c)) m = true →
  all_chars (λ c, negb (Ascii.eqb c "(") && negb (Ascii.eqb c ".")) m = true →
  all_chars (λ c, negb (Ascii.eqb c ".") && negb (is_newline c)) f = true →
  all_chars (λ c, negb (Ascii.eqb c ")") && negb (is_newline c)) r = true →
  let test := m +:+ String " " (String "(" (f +:+ String "." (r +:+ String ")" tail))) in
  method_part test = m ∧ file_part test = f ∧ class_part test = r.
Proof.
  intros Hm Hm' Hf Hr test. split_and!.
  - by apply method_part_conventional.
  - unfold file_part, first_or_empty, Re.findall_head, test.
    rewrite file_search_skip
      by (eapply all_chars_impl; [|exact Hm']; by intros c [? _]%andb_prop).
    change (String " " (String "(" ?x)) with (" " +:+ String "(" x).
    rewrite (file_search_skip " ") by done.
    by rewrite file_search_here.
  - unfold class_part, first_or_empty, Re.findall_head, test.
    rewrite class_search_skip
      by (eapply all_chars_impl; [|exact Hm']; by intros c [_ ?]%andb_prop).
    change (String " " (String "(" (f +:+ ?x))) with (" (" +:+ (f +:+ x)).
    rewrite (class_search_skip " (") by done.
    rewrite class_search_skip
      by (eapply all_chars_impl; [|exact Hf]; by intros c [? _]%andb_prop).
    by rewrite class_search_here.
Qed.
(** What [startTest] leaves in the plugin and in the new dict. *)
Lemma startTest_parts (test : string) (now_ms : Z) (p : TaurusNosePlugin) :
  ∃ p' d,
    startTest test now_ms p = (p', Ok ()) ∧
    _method_name p' = Some (method_part test) ∧
    _module_name p' = Some (file_part test +:+ "." +:+ class_part test) ∧
    last_err p' = None ∧
    jtl_dict p' = Some d ∧
    d !! "label" = Some (PStr (method_part test)) ∧
    d !! "threadName" = Some (PStr (file_part test +:+ "." +:+ class_part test)).
Proof.
  rewrite startTest_eq. eexists _, _. split; [reflexivity|].
  destruct (start_dict_lookup test now_ms) as (_ & _ & Hlb & _ & _ & Htn & _).
  destruct p; simpl. split_and!; done.
Qed.

(** X15: for an identity of the shape "method (file.class)", where the
    method name has no space, newline, parenthesis or dot, the file part
    no dot or newline and the class part no closing parenthesis or
    newline, [startTest] makes the method name the label and the text
    between the parentheses the thread-group name; dots inside the
    class part stay in it. *)
Theorem X15_conventional_identity (p : TaurusNosePlugin) (now_ms : Z)
    (m f r tail : string) :
  all_chars (λ c, negb (is_space c) && negb (is_newline c)) m = true →
  all_chars (λ c, negb (Ascii.eqb c "(") && negb (Ascii.eqb c ".")) m = true →
  all_chars (λ c, negb (Ascii.eqb c ".") && negb (is_newline c)) f = true →
  all_chars (λ c, negb (Ascii.eqb c ")") && negb (is_newline c)) r = true →
  ∃ p' d,
    startTest (m +:+ String " " (String "(" (f +:+ String "." (r +:+ String ")" tail))))
      now_ms p = (p', Ok ()) ∧
    _method_name p' = Some m ∧
    _module_name p' = Some (f +:+ "." +:+ r) ∧
    jtl_dict p' = Some d ∧
    d !! "label" = Some (PStr m) ∧
    d !! "threadName" = Some (PStr (f +:+ "." +:+ r)).
Proof.
  intros Hm Hm' Hf Hr.
  destruct (parse_conventional m f r tail Hm Hm' Hf Hr) as (Hmethod & Hfile & Hclass).
  destruct (startTest_parts
              (m +:+ String " " (String "(" (f +:+ String "." (r +:+ String ")" tail))))
              now_ms p) as (p' & d & Hstart & Hme & Hmo & _ & Hd & Hlb & Htn).
  rewrite Hmethod in Hme, Hlb. rewrite Hfile, Hclass in Hmo, Htn.
  exists p', d. split_and!; done.
Qed.

Lemma X15_witness :
  ∃ p' d,
    startTest "test_add (pkg.module.CalcTest)" 1000 (fst (run "out.csv" "err.xml" [])) =
      (p', Ok ()) ∧
    jtl_dict p' = Some d ∧
    d !! "label" = Some (PStr "test_add") ∧
    d !! "threadName" = Some (PStr "pkg.module.CalcTest").
Proof.
  destruct (X15_conventional_identity (fst (run "out.csv" "err.xml" [])) 1000
              "test_add" "pkg" "module.CalcTest" "" eq_refl eq_refl eq_refl eq_refl)
    as (p' & d & Hstart & _ & _ & Hd & Hlb & Htn).
  exists p', d. split; [exact Hstart|]. split; [exact Hd|]. split; [exact Hlb|exact Htn].
Defined.

Lemma file_search_none (s : string) :
  has_char "(" s = false ∨ has_char "." s = false →
  Re.search (SEARCH_PATTERNS "file") s = None.
Proof.
  induction s as [|c s IH]; [done|]. intros Hs.
  rewrite search_unfold, file_match_here.
  assert (has_char "(" s = false ∨ has_char "." s = false) as Hs'.
  { destruct Hs as [Hs|Hs]; cbn [has_char] in Hs;
      apply orb_false_elim in Hs as [_ Hs]; eauto. }
  destruct (Ascii.eqb "(" c) eqn:Hc; [|by apply IH].
  destruct Hs as [Hs|Hs]; cbn [has_char] in Hs;
    apply orb_false_elim in Hs as [Hc' Hs]; [congruence|].
  rewrite (lazy_star_no_stop "." (Re.consumed s) Re.AnyChar s Hs). by apply IH.
Qed.
Lemma class_search_none (s : string) :
  has_char "." s = false ∨ has_char ")" s = false →
  Re.search (SEARCH_PATTERNS "class") s = None.
Proof.
  induction s as [|c s IH]; [done|]. intros Hs.
  rewrite search_unfold, class_match_here.
  assert (has_char "." s = false ∨ has_char ")" s = false) as Hs'.
  { destruct Hs as [Hs|Hs]; cbn [has_char] in Hs;
      apply orb_false_elim in Hs as [_ Hs]; eauto. }
  destruct (Ascii.eqb "." c) eqn:Hc; [|by apply IH].
  destruct Hs as [Hs|Hs]; cbn [has_char] in Hs;
    apply orb_false_elim in Hs as [Hc' Hs]; [congruence|].
  rewrite (lazy_star_no_stop ")" (Re.consumed s) Re.AnyChar s Hs). by apply IH.
Qed.
(** X16: an identity string without any dot matches neither the file
    nor the class pattern: both parts are empty and the thread-group
    name [startTest] sets is the single dot. *)
Theorem X16_identity_without_dot (p : TaurusNosePlugin) (now_ms : Z) (test : string) :
  has_char "." test = false →
  file_part test = "" ∧
  class_part test = "" ∧
  ∃ p' d,
    startTest test now_ms p = (p', Ok ()) ∧
    _module_name p' = Some "." ∧
    jtl_dict p' = Some d ∧
    d !! "threadName" = Some (PStr ".").
Proof.
  intros Hdot.
  assert (file_part test = "") as Hfile.
  { unfold file_part, first_or_empty, Re.findall_head. rewrite file_search_none; eauto. }
  assert (class_part test = "") as Hclass.
  { unfold class_part, first_or_empty, Re.findall_head. rewrite class_search_none; eauto. }
  split; [done|]. split; [done|].
  destruct (startTest_parts test now_ms p) as (p' & d & Hstart & _ & Hmo & _ & Hd & _ & Htn).
  rewrite Hfile, Hclass in Hmo, Htn.
  exists p', d. split_and!; done.
Qed.

Lemma X16_witness :
  has_char "." "runTest" = false ∧
  ∃ p' d,
    startTest "runTest" 1000 (fst (run "out.csv" "err.xml" [])) = (p', Ok ()) ∧
    jtl_dict p' = Some d ∧
    d !! "threadName" = Some (PStr ".").
Proof.
  split; [reflexivity|].
  destruct (X16_identity_without_dot (fst (run "out.csv" "err.xml" [])) 1000 "runTest" eq_refl)
    as (_ & _ & p' & d & Hstart & _ & Hd & Htn).
  exists p', d. split; [exact Hstart|]. split; [exact Hd|exact Htn].
Defined.

(** X17: an identity string without any space does not match the method
    pattern and the label [startTest] sets is empty. *)
Theorem X17_identity_without_space (p : TaurusNosePlugin) (now_ms : Z) (test : string) :
  has_char " " test = false →
  method_part test = "" ∧
  ∃ p' d,
    startTest test now_ms p = (p', Ok ()) ∧
    _method_name p' = Some "" ∧
    jtl_dict p' = Some d ∧
    d !! "label" = Some (PStr "").
Proof.
  intros Hspace.
  pose proof (method_part_no_space test Hspace) as Hmethod.
  split; [done|].
  destruct (startTest_parts test now_ms p) as (p' & d & Hstart & Hme & _ & _ & Hd & Hlb & _).
  rewrite Hmethod in Hme, Hlb.
  exists p', d. split_and!; done.
Qed.

Lemma X17_witness :
  has_char " " "runTest" = false ∧
  ∃ p' d,
    startTest "runTest" 1000 (fst (run "out.csv" "err.xml" [])) = (p', Ok ()) ∧
    jtl_dict p' = Some d ∧
    d !! "label" = Some (PStr "").
Proof.
  split; [reflexivity|].
  destruct (X17_identity_without_space (fst (run "out.csv" "err.xml" [])) 1000 "runTest"
              eq_refl) as (_ & p' & d & Hstart & _ & Hd & Hlb).
  exists p', d. split; [exact Hstart|]. split; [exact Hd|exact Hlb].
Defined.

(** ** Several signals for one test *)

Lemma stashed_no_err (ss : list signal) (le : option exc_info) :
  existsb is_err_signal ss = false → stashed ss le = le.
Proof.
  revert le. induction ss as [|s ss IH]; intros le; [done|].
  simpl. intros [Hs Hss]%orb_false_elim. rewrite IH by done. by destruct s.
Qed.
(** X18: of several error or failure signals for one test the last one
    counts: when [stopTest] returns, the row's responseMessage and the
    entry's response-message are the type name of the exception of the
    last such signal, and the entry's body is its trace, whatever skip
    or success signals follow it. *)
Theorem X18_last_exception_wins (output_file err_file : string) (before : list test_case)
    (t : test_case) (pre post : list signal) (s : signal) (err : exc_info)
    (p : TaurusNosePlugin) :
  s = SigError err ∨ s = SigFailure err →
  signals t = pre ++ s :: post →
  existsb is_err_signal post = false →
  run output_file err_file (before ++ [t]) = (p, Ok ()) →
  ∃ p0 row el text,
    run output_file err_file before = (p0, Ok ()) ∧
    exc_value err = ExcText text ∧
    csv_rows p = csv_rows p0 ++ [row] ∧
    row !! 4%nat = Some (exc_type_name err) ∧
    xml_writes p = xml_writes p0 ++ [WElement el] ∧
    attrib_of el !! "rm" = Some (exc_type_name err) ∧
    text_of <$> children_of el !! 2%nat =
      Some (Some (String.concat "" (format_tb err) +:+ nl +:+ text)).
Proof.
  intros Hs Hss Hpost Hrun.
  assert (stashed (signals t) None = Some err) as Hst.
  { rewrite Hss, stashed_app. simpl. rewrite stashed_no_err by done.
    by destruct Hs as [-> | ->]. }
  destruct (run_snoc_stashed _ _ _ _ _ _ Hst Hrun)
    as (p0 & s' & text & Hrun0 & Htext & _ & Hrows & Hxml).
  eexists p0, (sample_row t), _, text.
  split; [exact Hrun0|]. split; [exact Htext|]. split; [exact Hrows|].
  split; [|split; [exact Hxml|]].
  - rewrite sample_row_eq. simpl. unfold message_text. by rewrite Hst.
  - split; [apply http_sample_attrib|reflexivity].
Qed.

Lemma X18_witness :
  let type_error := ExcInfo "TypeError" (ExcText "no") [] in
  let t := TestCase "test_div (pkg.module.CalcTest)" 1010
             [SigFailure value_error_text; SigError type_error; SigSkip] 7 in
  (SigError type_error = SigError type_error ∨ SigError type_error = SigFailure type_error) ∧
  signals t = [SigFailure value_error_text] ++ SigError type_error :: [SigSkip] ∧
  existsb is_err_signal [SigSkip] = false ∧
  run "out.csv" "err.xml" ([] ++ [t]) = (fst (run "out.csv" "err.xml" ([] ++ [t])), Ok ()) ∧
  ∃ p0 row el,
    run "out.csv" "err.xml" [] = (p0, Ok ()) ∧
    csv_rows (fst (run "out.csv" "err.xml" ([] ++ [t]))) = csv_rows p0 ++ [row] ∧
    row !! 4%nat = Some "TypeError" ∧
    xml_writes (fst (run "out.csv" "err.xml" ([] ++ [t]))) = xml_writes p0 ++ [WElement el] ∧
    attrib_of el !! "rm" = Some "TypeError".
Proof.
  intros type_error t.
  assert (run "out.csv" "err.xml" ([] ++ [t]) =
            (fst (run "out.csv" "err.xml" ([] ++ [t])), Ok ())) as Hrun
    by (apply run_returns; vm_compute; reflexivity).
  split; [left; reflexivity|]. split; [reflexivity|]. split; [reflexivity|].
  split; [exact Hrun|].
  destruct (X18_last_exception_wins "out.csv" "err.xml" [] t [SigFailure value_error_text]
              [SigSkip] (SigError type_error) type_error _ (or_introl eq_refl) eq_refl
              eq_refl Hrun)
    as (p0 & row & el & text & Hrun0 & _ & Hrows & Hrm & Hxml & Hel & _).
  exists p0, row, el. split; [exact Hrun0|]. split; [exact Hrows|].
  split; [exact Hrm|]. split; [exact Hxml|exact Hel].
Defined.

(** X19: a success signal after an error or failure signal does not
    clear the stashed exception either: when [stopTest] returns, the row
    has responseCode 200 and success "true", but its responseMessage is
    the exception type name instead of "OK", and a diagnostic entry with
    rc 200 and s "true" is written. *)
Theorem X19_success_after_failure (output_file err_file : string)
    (before : list test_case) (t : test_case) (pre : list signal) (s : signal)
    (err : exc_info) (p : TaurusNosePlugin) :
  s = SigError err ∨ s = SigFailure err →
  signals t = pre ++ [s; SigSuccess] →
  run output_file err_file (before ++ [t]) = (p, Ok ()) →
  ∃ p0 row el,
    run output_file err_file before = (p0, Ok ()) ∧
    csv_rows p = csv_rows p0 ++ [row] ∧
    row !! 3%nat = Some "200" ∧
    row !! 4%nat = Some (exc_type_name err) ∧
    row !! 6%nat = Some "true" ∧
    xml_writes p = xml_writes p0 ++ [WElement el] ∧
    attrib_of el !! "rm" = Some (exc_type_name err) ∧
    attrib_of el !! "rc" = Some "200" ∧
    attrib_of el !! "s" = Some "true".
Proof.
  intros Hs Hss Hrun.
  assert (stashed (signals t) None = Some err) as Hst.
  { rewrite Hss, stashed_app. by destruct Hs as [-> | ->]. }
  assert (last (signals t) = Some SigSuccess) as Hlast.
  { rewrite Hss. change (pre ++ [s; SigSuccess]) with (pre ++ [s] ++ [SigSuccess]).
    by rewrite app_assoc, last_snoc. }
  assert (success_text (signals t) = "true") as Hsucc.
  { apply success_text_true. rewrite Hss, elem_of_app. right.
    apply elem_of_cons. right. by apply list_elem_of_singleton. }
  destruct (run_snoc_stashed _ _ _ _ _ _ Hst Hrun)
    as (p0 & s' & text & Hrun0 & _ & Hs' & Hrows & Hxml).
  assert (s' = SigSuccess) as -> by congruence.
  rewrite Hsucc in Hxml.
  eexists p0, (sample_row t), _.
  split; [exact Hrun0|]. split; [exact Hrows|].
  rewrite sample_row_eq. unfold code_value, message_text. rewrite Hlast, Hst, Hsucc.
  split; [reflexivity|]. split; [reflexivity|]. split; [reflexivity|].
  split; [exact Hxml|]. split_and!; apply http_sample_attrib.
Qed.

Lemma X19_witness :
  let t := TestCase "test_div (pkg.module.CalcTest)" 1010
             [SigFailure value_error_text; SigSuccess] 7 in
  (SigFailure value_error_text = SigError value_error_text ∨
   SigFailure value_error_text = SigFailure value_error_text) ∧
  signals t = [] ++ [SigFailure value_error_text; SigSuccess] ∧
  run "out.csv" "err.xml" ([] ++ [t]) = (fst (run "out.csv" "err.xml" ([] ++ [t])), Ok ()) ∧
  ∃ p0 row el,
    run "out.csv" "err.xml" [] = (p0, Ok ()) ∧
    csv_rows (fst (run "out.csv" "err.xml" ([] ++ [t]))) = csv_rows p0 ++ [row] ∧
    row !! 3%nat = Some "200" ∧
    row !! 4%nat = Some "ValueError" ∧
    row !! 6%nat = Some "true" ∧
    xml_writes (fst (run "out.csv" "err.xml" ([] ++ [t]))) = xml_writes p0 ++ [WElement el] ∧
    attrib_of el !! "rm" = Some "ValueError" ∧
    attrib_of el !! "rc" = Some "200" ∧
    attrib_of el !! "s" = Some "true".
Proof.
  intros t.
  assert (run "out.csv" "err.xml" ([] ++ [t]) =
            (fst (run "out.csv" "err.xml" ([] ++ [t])), Ok ())) as Hrun
    by (apply run_returns; vm_compute; reflexivity).
  split; [right; reflexivity|]. split; [reflexivity|]. split; [exact Hrun|].
  exact (X19_success_after_failure "out.csv" "err.xml" [] t []
           (SigFailure value_error_text) value_error_text _ (or_intror eq_refl) eq_refl Hrun).
Defined.

(** ** A complete run *)

Lemma finalize_ready_eq (p : TaurusNosePlugin) :
  ready p →
  ∃ p' r,
    finalize p = (p', r) ∧
    (r = Ok () ↔ test_count p ≠ 0) ∧
    xml_writes p' = xml_writes p ++ [WEndTag "testResults"] ∧
    csv_rows p' = csv_rows p ∧
    (closed <$> out_stream p') = Some true ∧
    (closed <$> err_stream p') = Some true.
Proof.
  intros (Hew & Hcw & (fo & Hfo & Hfoc) & (fe & Hfe & Hfec)).
  destruct p as [mo me outf errf tc sc cw jd ew le tm os es so].
  destruct fo as [wo co], fe as [we ce]. simpl in *. subst.
  unfold finalize, xml_writes, csv_rows. unfold_monad. unfold_io. unfold_monad.
  destruct (decide (tc = 0)) as [Htc|Htc]; unfold_monad;
    eexists _, _; (split; [reflexivity|]); simpl; split_and!; done.
Qed.

(** X20: a complete run, [begin], the tests, [finalize], in which every
    callback before [finalize] returned, leaves both files closed; the
    sample log holds the header and one row per test, the diagnostic
    document is well-formed and holds one entry per test that received
    an error or failure signal; [finalize] returns normally exactly when
    at least one test ran. *)
Theorem X20_complete_run (output_file err_file : string) (tests : list test_case)
    (p : TaurusNosePlugin) :
  run output_file err_file tests = (p, Ok ()) →
  ∃ p' r,
    finalize p = (p', r) ∧
    (r = Ok () ↔ tests ≠ []) ∧
    (closed <$> out_stream p') = Some true ∧
    (closed <$> err_stream p') = Some true ∧
    csv_rows p' = JTL_HEADER :: (sample_row <$> tests) ∧
    well_formed (document (xml_writes p')) = true ∧
    length (entries (xml_writes p')) = length (List.filter got_err_signal tests).
Proof.
  intros Hrun.
  destruct (run_facts _ _ _ _ Hrun) as (Hts & Hp & Hrows & Hxml & Htc & _).
  destruct (finalize_ready_eq p Hp) as (p' & r & Hfin & Hr & Hxml' & Hrows' & Hfo & Hfe).
  exists p', r. split_and!; try done.
  - rewrite Hr, Htc. destruct tests; simpl; split; try done; lia.
  - by rewrite Hrows'.
  - rewrite Hxml', Hxml. destruct (test_entries_elements tests Hts) as [els ->].
    apply (well_formed_document "testResults" testResults_attrs els).
  - rewrite Hxml', Hxml, entries_app. simpl. rewrite app_nil_r.
    change (entries (WDeclaration :: WStartTag "testResults" testResults_attrs :: ?l))
      with (entries l).
    by apply entries_tests.
Qed.

Lemma X20_witness :
  run "out.csv" "err.xml" scenario_B_text =
    (fst (run "out.csv" "err.xml" scenario_B_text), Ok ()) ∧
  ∃ p' r,
    finalize (fst (run "out.csv" "err.xml" scenario_B_text)) = (p', r) ∧
    well_formed (document (xml_writes p')) = true.
Proof.
  assert (run "out.csv" "err.xml" scenario_B_text =
            (fst (run "out.csv" "err.xml" scenario_B_text), Ok ())) as Hrun
    by (apply run_returns; vm_compute; reflexivity).
  split; [exact Hrun|].
  destruct (X20_complete_run _ _ _ _ Hrun) as (p' & r & Hfin & _ & _ & _ & _ & Hwf & _).
  exists p', r. split; [exact Hfin|exact Hwf].
Defined.

(** ** The rows of a run, and runs in which [stopTest] raises *)

(** X21: in a run in which every callback returned, the sample log
    holds the header row followed by one row per test, the i-th row
    being the row of the i-th test: its start time, its elapsed time and
    its label show which test a row belongs to. *)
Theorem X21_sample_log_rows (output_file err_file : string) (tests : list test_case)
    (p : TaurusNosePlugin) :
  run output_file err_file tests = (p, Ok ()) →
  ∃ rows,
    csv_rows p = JTL_HEADER :: rows ∧
    length rows = length tests ∧
    (λ row, (row !! 0%nat, row !! 1%nat, row !! 2%nat)) <$> rows =
    (λ t, (Some (pretty (start_ms t)), Some (pretty (elapsed_ms t)),
           Some (method_part (identity t)))) <$> tests.
Proof.
  intros Hrun. destruct (run_facts _ _ _ _ Hrun) as (_ & _ & Hrows & _).
  exists (sample_row <$> tests). split_and!; try done.
  - by rewrite length_fmap.
  - rewrite <- list_fmap_compose. apply list_fmap_ext. intros i t _.
    unfold compose. by rewrite sample_row_eq.
Qed.

Lemma X21_witness :
  run "out.csv" "err.xml" scenario_B_text =
    (fst (run "out.csv" "err.xml" scenario_B_text), Ok ()) ∧
  ∃ rows,
    csv_rows (fst (run "out.csv" "err.xml" scenario_B_text)) = JTL_HEADER :: rows ∧
    length rows = 3%nat.
Proof.
  assert (run "out.csv" "err.xml" scenario_B_text =
            (fst (run "out.csv" "err.xml" scenario_B_text), Ok ())) as Hrun
    by (apply run_returns; vm_compute; reflexivity).
  split; [exact Hrun|].
  destruct (X21_sample_log_rows _ _ _ _ Hrun) as (rows & Hrows & Hlen & _).
  exists rows. split; [exact Hrows|exact Hlen].
Defined.

(** X22: a test that stops with a stashed exception whose value is the
    exception instance: [stopTest] raises [TypeError] where it appends
    the value to the stack text.  The test is counted, but it adds no
    row, no diagnostic entry and no report line. *)
Theorem X22_exception_instance (output_file err_file : string) (before : list test_case)
    (t : test_case) (err : exc_info) (message : string) (p0 : TaurusNosePlugin) :
  stashed (signals t) None = Some err →
  exc_value err = ExcInstance message →
  run output_file err_file before = (p0, Ok ()) →
  ∃ p,
    run output_file err_file (before ++ [t]) = (p, Raise TypeError) ∧
    test_count p = test_count p0 + 1 ∧
    csv_rows p = csv_rows p0 ∧
    xml_writes p = xml_writes p0 ∧
    stdout p = stdout p0.
Proof.
  intros Hst Hval Hrun0.
  assert (test_result t = Raise TypeError) as Ht.
  { unfold test_result, stop_result. rewrite Hst.
    by rewrite (diagnostic_entry_instance _ _ _ Hval). }
  destruct (run_snoc_outcome _ _ _ t _ Hrun0) as (p & Hrun & Htc & Hout).
  rewrite Ht in Hrun, Hout. by exists p.
Qed.

Lemma X22_witness :
  let t_add := TestCase "test_add (pkg.module.CalcTest)" 1000 [SigSuccess] 5 in
  let t_div := TestCase "test_div (pkg.module.CalcTest)" 1010 [SigFailure value_error] 7 in
  stashed (signals t_div) None = Some value_error ∧
  exc_value value_error = ExcInstance "bad input" ∧
  run "out.csv" "err.xml" [t_add] = (fst (run "out.csv" "err.xml" [t_add]), Ok ()) ∧
  ∃ p,
    run "out.csv" "err.xml" ([t_add] ++ [t_div]) = (p, Raise TypeError) ∧
    test_count p = test_count (fst (run "out.csv" "err.xml" [t_add])) + 1 ∧
    csv_rows p = csv_rows (fst (run "out.csv" "err.xml" [t_add])).
Proof.
  intros t_add t_div.
  assert (run "out.csv" "err.xml" [t_add] = (fst (run "out.csv" "err.xml" [t_add]), Ok ()))
    as Hrun0 by (apply run_returns; vm_compute; reflexivity).
  split; [reflexivity|]. split; [reflexivity|]. split; [exact Hrun0|].
  destruct (X22_exception_instance "out.csv" "err.xml" [t_add] t_div value_error "bad input"
              _ eq_refl eq_refl Hrun0) as (p & Hrun & Htc & Hrows & _).
  exists p. split; [exact Hrun|]. split; [exact Htc|exact Hrows].
Defined.

(** X23: a run none of whose tests receives an error or failure signal:
    every callback returns, the log holds one row per test and the
    diagnostic document holds no entry. *)
Theorem X23_run_without_exceptions (output_file err_file : string)
    (tests : list test_case) :
  Forall (λ t, got_err_signal t = false) tests →
  ∃ p,
    run output_file err_file tests = (p, Ok ()) ∧
    csv_rows p = JTL_HEADER :: (sample_row <$> tests) ∧
    entries (xml_writes p) = [] ∧
    test_count p = Z.of_nat (length tests).
Proof.
  intros Hno.
  assert (Forall (λ t, test_result t = Ok ()) tests) as Hts.
  { eapply Forall_impl; [exact Hno|]. apply test_result_no_err. }
  destruct (run_ok output_file err_file tests Hts) as (p & Hrun & _ & Hrows & Hxml & Htc & _).
  exists p. split_and!; try done.
  rewrite Hxml.
  change (entries (WDeclaration :: WStartTag "testResults" testResults_attrs :: ?l))
    with (entries l).
  apply length_zero_iff_nil. rewrite entries_tests by done.
  clear -Hno. induction Hno as [|t ts Ht _ IH]; [done|].
  change (List.filter got_err_signal (t :: ts))
    with (if got_err_signal t then t :: List.filter got_err_signal ts
          else List.filter got_err_signal ts).
  by rewrite Ht.
Qed.

Lemma X23_witness :
  let tests := [TestCase "test_add (pkg.module.CalcTest)" 1000 [SigSuccess] 5;
                TestCase "test_mul (pkg.module.CalcTest)" 1020 [SigSkip] 0] in
  Forall (λ t, got_err_signal t = false) tests ∧
  ∃ p,
    run "out.csv" "err.xml" tests = (p, Ok ()) ∧
    entries (xml_writes p) = [] ∧
    test_count p = 2.
Proof.
  intros tests.
  assert (Forall (λ t, got_err_signal t = false) tests) as Hno
    by (repeat constructor).
  split; [exact Hno|].
  destruct (X23_run_without_exceptions "out.csv" "err.xml" tests Hno)
    as (p & Hrun & _ & Hxml & Htc).
  exists p. split; [exact Hrun|]. split; [exact Hxml|exact Htc].
Defined.

(** X24: text the XML library refuses.  A test that stops with a stashed
    exception whose message holds a control character (here a form
    feed): the element for the response data cannot be built,
    [stopTest] raises [ValueError] after it has overwritten
    responseMessage, and neither an entry nor a row is written. *)
Theorem X24_control_character :
  let form_feed := String (Ascii.ascii_of_nat 12) "" in
  let err := ExcInfo "ValueError" (ExcText ("bad" +:+ form_feed +:+ "input")) [] in
  let t := TestCase "test_div (pkg.module.CalcTest)" 1010 [SigFailure err] 7 in
  snd (run "out.csv" "err.xml" [t]) = Raise ValueError ∧
  test_count (fst (run "out.csv" "err.xml" [t])) = 1 ∧
  entries (xml_writes (fst (run "out.csv" "err.xml" [t]))) = [] ∧
  csv_rows (fst (run "out.csv" "err.xml" [t])) = [JTL_HEADER] ∧
  (jtl_dict (fst (run "out.csv" "err.xml" [t])) ≫= (λ d, d !! "responseMessage")) =
    Some (PStr "ValueError").
Proof. vm_compute. done. Qed.

(** X25: the attribute "by" counts characters, not bytes: for a message
    with one two-byte character the trace (a newline, then the message)
    has twelve bytes and eleven characters, and the entry says 11. *)
Theorem X25_by_counts_characters :
  let e_acute := String (Ascii.ascii_of_nat 195) (String (Ascii.ascii_of_nat 169) "") in
  let err := ExcInfo "ValueError" (ExcText ("entr" +:+ e_acute +:+ "e bad")) [] in
  let t := TestCase "test_div (pkg.module.CalcTest)" 1010 [SigFailure err] 7 in
  snd (run "out.csv" "err.xml" [t]) = Ok () ∧
  (λ el, (attrib_of el !! "by",
          (λ c, String.length <$> text_of c) <$> children_of el !! 2%nat)) <$>
    entries (xml_writes (fst (run "out.csv" "err.xml" [t]))) =
    [(Some "11", Some (Some 12%nat))].
Proof. vm_compute. done. Qed.

(** ** Stashed exceptions, when [stopTest] returns *)

(** X26: a skip signal does not clear the stashed exception.  For a test
    whose last two signals are an error or failure and then a skip, and
    whose [stopTest] returns: a diagnostic entry is emitted and the
    row's responseMessage is the exception type name, while the
    responseCode, in the row and in the entry, is 300. *)
Theorem X26_skip_keeps_exception (output_file err_file : string)
    (before : list test_case) (t : test_case) (pre : list signal) (s : signal)
    (err : exc_info) (p : TaurusNosePlugin) :
  s = SigError err ∨ s = SigFailure err →
  signals t = pre ++ [s; SigSkip] →
  run output_file err_file (before ++ [t]) = (p, Ok ()) →
  ∃ p0 row el,
    run output_file err_file before = (p0, Ok ()) ∧
    csv_rows p = csv_rows p0 ++ [row] ∧
    row !! 3%nat = Some "300" ∧
    row !! 4%nat = Some (exc_type_name err) ∧
    xml_writes p = xml_writes p0 ++ [WElement el] ∧
    attrib_of el !! "rm" = Some (exc_type_name err) ∧
    attrib_of el !! "rc" = Some "300".
Proof.
  intros Hs Hss Hrun.
  assert (stashed (signals t) None = Some err) as Hst.
  { rewrite Hss, stashed_app. by destruct Hs as [-> | ->]. }
  assert (last (signals t) = Some SigSkip) as Hlast.
  { rewrite Hss. change (pre ++ [s; SigSkip]) with (pre ++ [s] ++ [SigSkip]).
    by rewrite app_assoc, last_snoc. }
  destruct (run_snoc_stashed _ _ _ _ _ _ Hst Hrun)
    as (p0 & s' & text & Hrun0 & _ & Hs' & Hrows & Hxml).
  assert (s' = SigSkip) as -> by congruence.
  eexists p0, (sample_row t), _. split_and!; [done|done| | |exact Hxml|..].
  - rewrite sample_row_eq. simpl. unfold code_value. by rewrite Hlast.
  - rewrite sample_row_eq. simpl. unfold message_text. by rewrite Hst.
  - apply http_sample_attrib.
  - apply http_sample_attrib.
Qed.

Lemma X26_witness :
  let t := TestCase "test_div (pkg.module.CalcTest)" 1010
             [SigFailure value_error_text; SigSkip] 7 in
  (SigFailure value_error_text = SigError value_error_text ∨
   SigFailure value_error_text = SigFailure value_error_text) ∧
  signals t = [] ++ [SigFailure value_error_text; SigSkip] ∧
  run "out.csv" "err.xml" ([] ++ [t]) = (fst (run "out.csv" "err.xml" ([] ++ [t])), Ok ()) ∧
  ∃ p0 row el,
    run "out.csv" "err.xml" [] = (p0, Ok ()) ∧
    csv_rows (fst (run "out.csv" "err.xml" ([] ++ [t]))) = csv_rows p0 ++ [row] ∧
    row !! 3%nat = Some "300" ∧
    row !! 4%nat = Some "ValueError" ∧
    xml_writes (fst (run "out.csv" "err.xml" ([] ++ [t]))) = xml_writes p0 ++ [WElement el] ∧
    attrib_of el !! "rm" = Some "ValueError" ∧
    attrib_of el !! "rc" = Some "300".
Proof.
  intros t.
  assert (run "out.csv" "err.xml" ([] ++ [t]) =
            (fst (run "out.csv" "err.xml" ([] ++ [t])), Ok ())) as Hrun
    by (apply run_returns; vm_compute; reflexivity).
  split; [right; reflexivity|]. split; [reflexivity|]. split; [exact Hrun|].
  exact (X26_skip_keeps_exception "out.csv" "err.xml" [] t []
           (SigFailure value_error_text) value_error_text _ (or_intror eq_refl) eq_refl Hrun).
Defined.

(** X27: a test that stops with a stashed exception and whose [stopTest]
    returns: the value of the exception is a string, the row's
    responseMessage is the exception's type name and exactly one
    diagnostic entry is forwarded, whose response-message attribute is
    that type name and whose response-body text is the formatted stack
    text, a newline, then that string. *)
Theorem X27_stashed_exception_entry (output_file err_file : string)
    (before : list test_case) (t : test_case) (err : exc_info) (p : TaurusNosePlugin) :
  stashed (signals t) None = Some err →
  run output_file err_file (before ++ [t]) = (p, Ok ()) →
  ∃ p0 row el text,
    run output_file err_file before = (p0, Ok ()) ∧
    exc_value err = ExcText text ∧
    csv_rows p = csv_rows p0 ++ [row] ∧
    row !! 4%nat = Some (exc_type_name err) ∧
    xml_writes p = xml_writes p0 ++ [WElement el] ∧
    tag_of el = "httpSample" ∧
    attrib_of el !! "rm" = Some (exc_type_name err) ∧
    tag_of <$> children_of el !! 2%nat = Some "responseData" ∧
    text_of <$> children_of el !! 2%nat =
      Some (Some (String.concat "" (format_tb err) +:+ nl +:+ text)).
Proof.
  intros Hst Hrun.
  destruct (run_snoc_stashed _ _ _ _ _ _ Hst Hrun)
    as (p0 & s & text & Hrun0 & Htext & _ & Hrows & Hxml).
  eexists p0, (sample_row t), _, text. split_and!; [done|done|done| |exact Hxml|..].
  - rewrite sample_row_eq. simpl. unfold message_text. by rewrite Hst.
  - done.
  - apply http_sample_attrib.
  - done.
  - done.
Qed.

Lemma X27_witness :
  let t_add := TestCase "test_add (pkg.module.CalcTest)" 1000 [SigSuccess] 5 in
  let t_div := TestCase "test_div (pkg.module.CalcTest)" 1010
                 [SigFailure value_error_text] 7 in
  stashed (signals t_div) None = Some value_error_text ∧
  run "out.csv" "err.xml" ([t_add] ++ [t_div]) =
    (fst (run "out.csv" "err.xml" ([t_add] ++ [t_div])), Ok ()) ∧
  ∃ p0 el,
    run "out.csv" "err.xml" [t_add] = (p0, Ok ()) ∧
    xml_writes (fst (run "out.csv" "err.xml" ([t_add] ++ [t_div]))) =
      xml_writes p0 ++ [WElement el] ∧
    attrib_of el !! "rm" = Some "ValueError".
Proof.
  intros t_add t_div.
  assert (run "out.csv" "err.xml" ([t_add] ++ [t_div]) =
            (fst (run "out.csv" "err.xml" ([t_add] ++ [t_div])), Ok ())) as Hrun
    by (apply run_returns; vm_compute; reflexivity).
  split; [reflexivity|]. split; [exact Hrun|].
  destruct (X27_stashed_exception_entry "out.csv" "err.xml" [t_add] t_div value_error_text
              _ eq_refl Hrun)
    as (p0 & row & el & text & Hrun0 & _ & _ & _ & Hxml & _ & Hrm & _).
  exists p0, el. split; [exact Hrun0|]. split; [exact Hxml|exact Hrm].
Defined.
